(** * Tag Input Control: the tag model, the preference ranking, the
      search-time resolution step and the Tag Manager Service.

    Shallow embedding of [Tag.ts] and [TagManagerService.ts].

    Conventions of the embedding.
    - A JavaScript [string] is a Rocq [string]; [toLowerCase] is the ASCII
      lower-casing, which is what it does on locale codes such as
      [en-us].
    - A tag identifier, which the code compares with [===], is a
      [Js.value]: [undefined], [null] or a string.  An optional string that
      the code only tests with [== null], [!= undefined] or for truthiness,
      where [null] and [undefined] behave alike, is an [option]; [None] is
      [undefined].
    - A JavaScript [number] that only ever holds 1, 2, 3 or a comparator
      result is a [Z].
    - [async] methods run to completion one after the other, so they are
      sequential state transformers that may throw. *)

From Stdlib Require Import String Ascii List ZArith Bool Lia Permutation Sorted.
Import ListNotations.
Open Scope string_scope.
Open Scope Z_scope.

(** ** JavaScript primitives used by the code *)

Module Js.

(** [String.prototype.toLowerCase], on ASCII. *)
Definition lower_char (c : ascii) : ascii :=
  let n := nat_of_ascii c in
  if (Nat.leb 65 n && Nat.leb n 90)%bool then ascii_of_nat (n + 32) else c.

Fixpoint toLowerCase (s : string) : string :=
  match s with
  | EmptyString => EmptyString
  | String c r => String (lower_char c) (toLowerCase r)
  end.

(** [s.split('-')[0]]: the text before the first hyphen, the whole string
    when there is none.  [split] never returns an empty array, so index 0
    is always defined. *)
Fixpoint split_hyphen_0 (s : string) : string :=
  match s with
  | EmptyString => EmptyString
  | String c r =>
      if Ascii.eqb c "-"%char then EmptyString else String c (split_hyphen_0 r)
  end.

(** A value of type [string | null | undefined]. *)
Inductive value : Type :=
| undefined
| null
| str (s : string).

(** [a === b]: [undefined] and [null] are equal to themselves only. *)
Definition strict_eq (a b : value) : bool :=
  match a, b with
  | undefined, undefined => true
  | null, null => true
  | str x, str y => String.eqb x y
  | _, _ => false
  end.

(** [a == b]: as [===], except that [null] and [undefined] are equal. *)
Definition loose_eq (a b : value) : bool :=
  match a, b with
  | (undefined | null), (undefined | null) => true
  | str x, str y => String.eqb x y
  | _, _ => false
  end.

(** Truthiness of a value: [undefined], [null] and the empty string are
    falsy. *)
Definition truthy_value (a : value) : bool :=
  match a with
  | undefined | null => false
  | str s => negb (String.eqb s "")
  end.

(** A value inside a template literal. *)
Definition interpolate_value (a : value) : string :=
  match a with
  | undefined => "undefined"
  | null => "null"
  | str s => s
  end.

(** Truthiness of an optional string: absent and the empty string are
    falsy. *)
Definition truthy (a : option string) : bool :=
  match a with
  | None => false
  | Some s => negb (String.eqb s "")
  end.

(** [a == null]. *)
Definition is_null {A : Type} (a : option A) : bool :=
  match a with
  | None => true
  | Some _ => false
  end.

(** An optional string inside a template literal. *)
Definition interpolate (a : option string) : string :=
  match a with
  | None => "undefined"
  | Some s => s
  end.

(** [Array.prototype.find]: the first element satisfying the predicate,
    [undefined] when there is none. *)
Definition find {A : Type} (p : A -> bool) (l : list A) : option A :=
  List.find p l.

(** [Array.prototype.sort(comparefn)].  The sort is stable, and the
    comparators passed here are consistent, so the result is the one of
    the stable insertion sort: an element goes before the first element
    it does not compare greater than. *)
Fixpoint sort_insert {A : Type} (cmp : A -> A -> Z) (x : A) (l : list A) : list A :=
  match l with
  | [] => [x]
  | y :: r => if cmp x y <=? 0 then x :: y :: r else y :: sort_insert cmp x r
  end.

Definition sort {A : Type} (cmp : A -> A -> Z) (l : list A) : list A :=
  fold_right (sort_insert cmp) [] l.

(** [Array.prototype.reduce(callback, initial)]. *)
Definition reduce {A B : Type} (f : B -> A -> B) (init : B) (l : list A) : B :=
  fold_left f l init.

End Js.

(** ** Tag.ts *)

Module Tag.

Record t : Type := mk {
  id : Js.value;
  value : string;
  name : string;
  (* declared [string]; the translation search passes a property that its
     query does not select, so the value may be [undefined] *)
  scope : option string;
  lcid : string;
  recordId : option string;
  preference : Z;
  persisted : bool;
  (* unset until the first [Translate] *)
  originallcid : option string
}.

Definition set_preference (p : Z) (this : t) : t :=
  mk (id this) (value this) (name this) (scope this) (lcid this)
     (recordId this) p (persisted this) (originallcid this).

Definition set_persisted (b : bool) (this : t) : t :=
  mk (id this) (value this) (name this) (scope this) (lcid this)
     (recordId this) (preference this) b (originallcid this).

(** [Tag.CalculatePreference]. *)
Definition CalculatePreference (this : t) (userlcid : string) : t :=
  if String.eqb (lcid this) userlcid then set_preference 1 this
  else if String.eqb (Js.split_hyphen_0 (lcid this)) (Js.split_hyphen_0 userlcid)
       then set_preference 2 this
       else set_preference 3 this.

(** The constructor.  [preference] has no value before
    [CalculatePreference] assigns it; the placeholder 0 is never
    observed. *)
Definition new (name lcid : string) (scope : option string) (userlcid : string)
    (persisted : bool) (tagId : Js.value) (recordId : option string) : t :=
  CalculatePreference
    (mk tagId name name scope (Js.toLowerCase lcid) recordId 0 persisted None)
    userlcid.

(** [Tag.Translate]. *)
Definition Translate (this : t) (name lcid userlcid : string) : t :=
  CalculatePreference
    (mk (id this) name name (scope this) (Js.toLowerCase lcid) (recordId this)
        (preference this) (persisted this) (Some (Tag.lcid this)))
    userlcid.

End Tag.

Module Language.

Record t : Type := mk {
  id : option string;
  lcid : string;
  code : string;
  name : string
}.

End Language.


(** ** FetchXMLQueries.ts *)

Module FetchXMLQueries.

(** The template literal with its line breaks removed, indentation kept. *)
Definition BuildFindTagsAndTranslationsXML
    (enityName intersectEntityName entityId scope lcdi : string) : string :=
  "<fetch>"
  ++ "    <entity name='" ++ enityName ++ "'>"
  ++ "      <filter type='and'>"
  ++ "        <condition attribute='" ++ enityName ++ "id' operator='eq' value='"
       ++ entityId ++ "' />"
  ++ "      </filter>"
  ++ "      <link-entity name='" ++ intersectEntityName ++ "' from='" ++ enityName
       ++ "id' to='" ++ enityName ++ "id' intersect='true'>"
  ++ "        <link-entity name='eax_tag' from='eax_tagid' to='eax_tagid' alias='tags'>"
  ++ "          <attribute name='eax_name' />"
  ++ "          <attribute name='eax_languagelcid' />"
  ++ "          <attribute name='eax_tagid' />"
  ++ "          <attribute name='eax_scope' />"
  ++ "          <filter type='and'>"
  ++ "            <condition attribute='eax_scope' operator='eq' value='" ++ scope ++ "' />"
  ++ "          </filter>"
  ++ "          <link-entity name='eax_tagtranslation' from='eax_tag' to='eax_tagid' link-type='outer' alias='tag_translations'>"
  ++ "            <attribute name='eax_name' />"
  ++ "            <attribute name='eax_tag' />"
  ++ "            <attribute name='eax_languagelcid' />"
  ++ "            <attribute name='eax_tagscope' />"
  ++ "            <filter type='and'>"
  ++ "              <condition attribute='eax_tagscope' operator='eq' value='" ++ scope ++ "' />"
  ++ "              <condition attribute='eax_languagelcid' operator='eq' value='" ++ lcdi ++ "' />"
  ++ "            </filter>"
  ++ "          </link-entity>"
  ++ "        </link-entity>"
  ++ "      </link-entity>"
  ++ "    </entity>"
  ++ "  </fetch>".

End FetchXMLQueries.

(** ** ErrorDefinitions.ts *)

(** A user message: the key given to [_resx.getString] and the placeholders
    given to [format]. *)
Record Message : Type := mkMessage {
  key : string;
  placeholders : list (string * string)
}.

(** The errors the service sees.  [Error] stands for every error that is
    not a [CustomError]: a transport failure of the backend, a [TypeError]
    of the runtime, the [Error] thrown by [Update].  What is thrown is
    always such an object, hence truthy: the constructor of
    [TagManagerServiceError], which throws on a falsy [error], always
    stores the error it is given as [original]. *)
Inductive JsError : Type :=
| Error (message : string)
| CustomError (message : Message)
| TagManagerServiceError (message : Message) (original : JsError).

(** [err instanceof CustomError]; [TagManagerServiceError] extends it. *)
Definition instanceof_CustomError (e : JsError) : bool :=
  match e with
  | Error _ => false
  | CustomError _ | TagManagerServiceError _ _ => true
  end.

(** ** The backend, as the service sees it *)

(** Rows of [retrieveMultipleRecords('eax_tag', ...)]. *)
Module TagEntity.
Record t : Type := mk {
  eax_name : string;
  eax_languagelcid : string;
  eax_scope : string;
  eax_tagid : Js.value
}.
End TagEntity.

(** Rows of [retrieveMultipleRecords('eax_tagtranslation', ...)].  [eax_Tag]
    is the expanded parent: [None] when the row has none, otherwise the
    [eax_tagid] of the parent. *)
Module TranslationEntity.
Record t : Type := mk {
  eax_name : string;
  eax_languagelcid : string;
  eax_scope : option string;
  eax_Tag : option Js.value
}.
End TranslationEntity.

(** Rows of the FetchXML query of [GetAllByRecordId]; the property names
    are [tags.eax_name], [tag_translations.eax_name] and so on. *)
Module AttachedEntity.
Record t : Type := mk {
  tags_eax_name : string;
  tags_eax_languagelcid : string;
  tags_eax_scope : string;
  tags_eax_tagid : Js.value;
  tag_translations_eax_name : option string;
  tag_translations_eax_languagelcid : option string
}.
End AttachedEntity.

(** Rows of [retrieveMultipleRecords('eax_language', ...)]. *)
Module LanguageEntity.
Record t : Type := mk {
  eax_languageid : option string;
  eax_lcid : string;
  eax_code : string;
  eax_name : string
}.
End LanguageEntity.

(** An element of [data.value] of the relationship metadata request. *)
Record Relationship : Type := mkRelationship {
  SchemaName : option string;
  IntersectEntityName : option string
}.

(** The calls made on an [odata-query-builder] query, kept as data. *)
Module QueryBuilder.
Inductive Condition : Type :=
| filterPhrase (phrase : string)
| filterExpression (field operator value : string).

(** An entry of a [filter(...)] builder: a condition, or the nested
    builder of [.or(...)]. *)
Inductive Filter : Type :=
| cond (c : Condition)
| or (inner : list Condition).

Record Query : Type := mkQuery {
  select : string;
  expand : option string;
  top : option Z;
  filter : list Filter;
  orderBy : option string
}.
End QueryBuilder.

(** What goes out to the backend; the service state keeps the sequence of
    requests it has issued. *)
Inductive Request : Type :=
| retrieveMultipleRecords (entityType : string) (query : QueryBuilder.Query)
| retrieveMultipleRecords_fetchXml (entityType : string) (options : string)
| createRecord (entityType : string) (data : list (string * string))
| axios_get (url : string)
| axios_post (url : string) (odata_id : string)
| axios_delete (url : string).

Inductive Outcome (A : Type) : Type :=
| Return (a : A)
| Throw (e : JsError).
Arguments Return {A} a.
Arguments Throw {A} e.

(** A backend over a world [W]: every call answers or throws, and moves the
    world. *)
Record Backend (W : Type) : Type := mkBackend {
  retrieve_eax_tag : QueryBuilder.Query -> W -> Outcome (list TagEntity.t) * W;
  retrieve_eax_tagtranslation : QueryBuilder.Query -> W -> Outcome (list TranslationEntity.t) * W;
  retrieve_eax_language : QueryBuilder.Query -> W -> Outcome (list LanguageEntity.t) * W;
  retrieve_fetchXml : string -> string -> W -> Outcome (list AttachedEntity.t) * W;
  (* the [id] of the created record *)
  create_eax_tag : list (string * string) -> W -> Outcome Js.value * W;
  (* [data.EntitySetName] *)
  get_EntitySetName : string -> W -> Outcome (option string) * W;
  (* [data.value] *)
  get_ManyToManyRelationships : string -> W -> Outcome (option (list Relationship)) * W;
  (* [response.status] *)
  post : string -> string -> W -> Outcome Z * W;
  delete : string -> W -> Outcome Z * W
}.
Arguments retrieve_eax_tag {W} _ _ _.
Arguments retrieve_eax_tagtranslation {W} _ _ _.
Arguments retrieve_eax_language {W} _ _ _.
Arguments retrieve_fetchXml {W} _ _ _ _.
Arguments create_eax_tag {W} _ _ _.
Arguments get_EntitySetName {W} _ _ _.
Arguments get_ManyToManyRelationships {W} _ _ _.
Arguments post {W} _ _ _ _.
Arguments delete {W} _ _ _.

(** ** TagManagerService.ts *)

Module TagManagerService.

(** The fields of the class.  The four that the code compares with [null]
    before use are options; [_resx] only supplies message texts and is
    represented by the keys in [Message]. *)
Record t : Type := mk {
  _entitySetName : option string;
  _entityName : string;
  _manyToManyRelationshipName : option string;
  _intersectEntityName : option string;
  _entityId : option string;
  _languageLCID : string;
  _languageCode : string;
  _scope : string;
  _addedTags : option (list Tag.t);
  _crmHost : string;
  _webApiBasePath : string
}.

Definition set_entitySetName (v : option string) (s : t) : t :=
  mk v (_entityName s) (_manyToManyRelationshipName s) (_intersectEntityName s)
     (_entityId s) (_languageLCID s) (_languageCode s) (_scope s) (_addedTags s)
     (_crmHost s) (_webApiBasePath s).

Definition set_relationship (schema intersect : option string) (s : t) : t :=
  mk (_entitySetName s) (_entityName s) schema intersect
     (_entityId s) (_languageLCID s) (_languageCode s) (_scope s) (_addedTags s)
     (_crmHost s) (_webApiBasePath s).

Definition set_addedTags (v : option (list Tag.t)) (s : t) : t :=
  mk (_entitySetName s) (_entityName s) (_manyToManyRelationshipName s)
     (_intersectEntityName s) (_entityId s) (_languageLCID s) (_languageCode s)
     (_scope s) v (_crmHost s) (_webApiBasePath s).

(** The constructor.  [manyToManyRelationshipName] and
    [intersectEntityName] default to the empty string, which leaves the
    field unset. *)
Definition new (scope languageLCID entityName : string) (entityId : option string)
    (crmHost manyToManyRelationshipName intersectEntityName webApiBasePath : string) : t :=
  let lcid := Js.toLowerCase languageLCID in
  mk None entityName
     (if String.eqb manyToManyRelationshipName "" then None
      else Some manyToManyRelationshipName)
     (if String.eqb intersectEntityName "" then None else Some intersectEntityName)
     entityId lcid (Js.split_hyphen_0 lcid) scope None crmHost webApiBasePath.

(** The state a method runs in: the service object, the backend's world,
    the requests issued so far, and the global [name] of the page
    ([window.name]), which [Add] reads. *)
Record State (W : Type) : Type := mkState {
  this : t;
  world : W;
  requests : list Request;
  window_name : string
}.
Arguments mkState {W} _ _ _ _.
Arguments this {W} _.
Arguments world {W} _.
Arguments requests {W} _.
Arguments window_name {W} _.

(** Methods: state transformers that return or throw.  A throw keeps the
    state reached so far, as assignments made before an exception stay. *)
Definition M (W A : Type) : Type := State W -> Outcome A * State W.

Definition ret {W A : Type} (a : A) : M W A := fun st => (Return a, st).

Definition throw {W A : Type} (e : JsError) : M W A := fun st => (Throw e, st).

Definition bind {W A B : Type} (m : M W A) (k : A -> M W B) : M W B :=
  fun st =>
    match m st with
    | (Return a, st') => k a st'
    | (Throw e, st') => (Throw e, st')
    end.

(** [try { m } catch (err) { h err }]. *)
Definition try_catch {W A : Type} (m : M W A) (h : JsError -> M W A) : M W A :=
  fun st =>
    match m st with
    | (Return a, st') => (Return a, st')
    | (Throw e, st') => h e st'
    end.

Definition get_this {W : Type} : M W t := fun st => (Return (this st), st).

Definition modify_this {W : Type} (f : t -> t) : M W unit :=
  fun st => (Return tt, mkState (f (this st)) (world st) (requests st) (window_name st)).

Definition get_window_name {W : Type} : M W string :=
  fun st => (Return (window_name st), st).

(** Issue a request: record it, then let the backend answer. *)
Definition call {W A : Type} (r : Request) (op : W -> Outcome A * W) : M W A :=
  fun st =>
    let (res, w') := op (world st) in
    (res, mkState (this st) w' (requests st ++ [r]) (window_name st)).

(** [when c m]: [if (c) m]. *)
Definition when {W : Type} (c : bool) (m : M W unit) : M W unit :=
  if c then m else ret tt.

(** [l.map(f)] where [f] may throw. *)
Fixpoint map_throwing {A B : Type} (f : A -> Outcome B) (l : list A) : Outcome (list B) :=
  match l with
  | [] => Return []
  | x :: r =>
      match f x with
      | Throw e => Throw e
      | Return y =>
          match map_throwing f r with
          | Throw e => Throw e
          | Return ys => Return (y :: ys)
          end
      end
  end.

Definition lift {W A : Type} (o : Outcome A) : M W A := fun st => (o, st).

Definition TypeError (what : string) : JsError := Error ("TypeError: " ++ what).

Notation "x <- m ;; k" := (bind m (fun x => k))
  (at level 61, m at next level, right associativity).
Notation "m ;;; k" := (bind m (fun _ => k))
  (at level 61, right associativity).

(** [SetPreferenceOrder].  The arrays it sorts hold [Tag] objects only, so
    its [null] test never fires. *)
Definition SetPreferenceOrder (tag1 tag2 : Tag.t) : Z :=
  if Tag.preference tag1 >? Tag.preference tag2 then 1
  else if Tag.preference tag1 <? Tag.preference tag2 then -1
  else 0.

(** The callback of the [reduce] in [SearchByName]. *)
Definition allTags_callback (_addedTags acc : list Tag.t) (item : Tag.t) : list Tag.t :=
  match Js.find (fun i => Js.strict_eq (Tag.id i) (Tag.id item)) _addedTags with
  | None =>
      match Js.find (fun e => String.eqb (Tag.name e) (Tag.name item)
                              || Js.strict_eq (Tag.id e) (Tag.id item))%bool acc with
      | None => acc ++ [item]
      | Some _ => acc
      end
  | Some _ => acc
  end.

(** The value of [allTags] in [SearchByName]:
    [tags.concat(translatedTags).sort(...).reduce(..., [])]. *)
Definition allTags (tags translatedTags _addedTags : list Tag.t) : list Tag.t :=
  Js.reduce (allTags_callback _addedTags) []
    (Js.sort SetPreferenceOrder (tags ++ translatedTags)).

(** The queries the methods build. *)
Definition SearchByName_query (s : t) (name : string) : QueryBuilder.Query :=
  QueryBuilder.mkQuery "eax_name, eax_languagelcid, eax_scope" None None
    [QueryBuilder.cond (QueryBuilder.filterPhrase ("contains(eax_name,'" ++ name ++ "')"));
     QueryBuilder.cond (QueryBuilder.filterExpression "eax_scope" "eq" (_scope s))]
    (Some "eax_name").

Definition SearchTranslationsByName_query (s : t) (name : string) : QueryBuilder.Query :=
  QueryBuilder.mkQuery "eax_name, eax_languagelcid, eax_tagscope"
    (Some "eax_Tag($select=eax_tagid)") None
    [QueryBuilder.cond (QueryBuilder.filterPhrase ("contains(eax_name,'" ++ name ++ "')"));
     QueryBuilder.cond (QueryBuilder.filterExpression "eax_tagscope" "eq" (_scope s));
     QueryBuilder.or
       [QueryBuilder.filterExpression "eax_languagelcid" "eq" (_languageLCID s);
        QueryBuilder.filterPhrase
          ("contains(eax_languagelcid,'" ++ _languageCode s ++ "')")]]
    (Some "eax_name").

Definition GetByName_query (name : string) : QueryBuilder.Query :=
  QueryBuilder.mkQuery "eax_name, eax_languagelcid, eax_scope, eax_tagid" None (Some 1)
    [QueryBuilder.cond (QueryBuilder.filterExpression "eax_name" "eq" (Js.toLowerCase name))]
    None.

Definition GetLanguageByLCID_query (lcid : string) : QueryBuilder.Query :=
  QueryBuilder.mkQuery "eax_name, eax_lcid, eax_code, eax_languageid" None (Some 1)
    [QueryBuilder.cond (QueryBuilder.filterExpression "eax_lcid" "eq" lcid)]
    None.

(** The URLs the methods build. *)
Definition EntitySetName_url (s : t) : string :=
  _webApiBasePath s ++ "/EntityDefinitions(LogicalName='" ++ _entityName s
  ++ "')?$select=EntitySetName".

Definition ManyToManyRelationships_url (s : t) : string :=
  _webApiBasePath s ++ "/EntityDefinitions(LogicalName='" ++ _entityName s
  ++ "')/ManyToManyRelationships?$select=SchemaName,IntersectEntityName&$filter=Entity1LogicalName eq 'eax_tag'".

Definition Relate_url (s : t)
    (primaryEntityId primaryEntitySetName relationshipName : string) : string :=
  _webApiBasePath s ++ "/" ++ primaryEntitySetName ++ "(" ++ primaryEntityId ++ ")/"
  ++ relationshipName ++ "/$ref".

Definition Relate_odata_id (s : t) (relatedEntitySetName relatedEntityId : string) : string :=
  _crmHost s ++ _webApiBasePath s ++ "/" ++ relatedEntitySetName
  ++ "(" ++ relatedEntityId ++ ")".

Definition Remove_url (s : t) (tagId : string) : string :=
  _webApiBasePath s ++ "/" ++ Js.interpolate (_entitySetName s)
  ++ "(" ++ Js.interpolate (_entityId s) ++ ")/"
  ++ Js.interpolate (_manyToManyRelationshipName s)
  ++ "/$ref?$id=" ++ _webApiBasePath s ++ "/eax_tags(" ++ tagId ++ ")".

(** The row-to-[Tag] callbacks of the three [map] calls. *)
Definition tag_of_entity (s : t) (e : TagEntity.t) : Tag.t :=
  Tag.new (TagEntity.eax_name e) (TagEntity.eax_languagelcid e)
    (Some (TagEntity.eax_scope e)) (_languageLCID s) true (TagEntity.eax_tagid e) None.

Definition tag_of_translation (s : t) (e : TranslationEntity.t) : Outcome Tag.t :=
  match TranslationEntity.eax_Tag e with
  | None => Throw (TypeError "Cannot read property 'eax_tagid' of undefined")
  | Some tagid =>
      Return (Tag.new (TranslationEntity.eax_name e) (TranslationEntity.eax_languagelcid e)
                (TranslationEntity.eax_scope e) (_languageLCID s) true tagid None)
  end.

Definition tag_of_attached (s : t) (e : AttachedEntity.t) : Outcome Tag.t :=
  let tag := Tag.new (AttachedEntity.tags_eax_name e) (AttachedEntity.tags_eax_languagelcid e)
               (Some (AttachedEntity.tags_eax_scope e)) (_languageLCID s) true
               (AttachedEntity.tags_eax_tagid e) (_entityId s) in
  let translatedName :=
    match AttachedEntity.tag_translations_eax_name e with
    | Some n => n
    | None => ""
    end in
  if (negb (String.eqb translatedName "")
      && negb (String.eqb (Tag.lcid tag) (_languageLCID s)))%bool
  then match AttachedEntity.tag_translations_eax_languagelcid e with
       | Some l => Return (Tag.Translate tag translatedName l (_languageLCID s))
       | None => Throw (TypeError "Cannot read property 'toLowerCase' of undefined")
       end
  else Return tag.

Section Methods.

Context {W : Type} (B : Backend W).

(** [LoadEntityMetadata]. *)
Definition LoadEntityMetadata : M W unit :=
  s <- get_this ;;
  esn <- call (axios_get (EntitySetName_url s)) (get_EntitySetName B (EntitySetName_url s)) ;;
  modify_this (set_entitySetName esn) ;;;
  match esn with
  | None =>
      throw (CustomError (mkMessage "ErrEntitySetNotFoundKey" [("entityName", _entityName s)]))
  | Some _ =>
      match _manyToManyRelationshipName s with
      | Some _ => ret tt
      | None =>
          relationshipNames <-
            call (axios_get (ManyToManyRelationships_url s))
                 (get_ManyToManyRelationships B (ManyToManyRelationships_url s)) ;;
          match relationshipNames with
          | Some (r0 :: _) =>
              if (Js.truthy (SchemaName r0) && Js.truthy (IntersectEntityName r0))%bool
              then modify_this (set_relationship (SchemaName r0) (IntersectEntityName r0))
              else throw (CustomError (mkMessage "ErrManyToManyRelationshipNotFoundKey"
                                         [("entityName", _entityName s)]))
          | _ =>
              throw (CustomError (mkMessage "ErrManyToManyRelationshipNotFoundKey"
                                    [("entityName", _entityName s)]))
          end
      end
  end.

(** [GetAllByRecordId]. *)
Definition GetAllByRecordId : M W (list Tag.t) :=
  try_catch
    (s0 <- get_this ;;
     when (negb (Js.truthy (_intersectEntityName s0))) LoadEntityMetadata ;;;
     s <- get_this ;;
     let options :=
       "?fetchXml=" ++
       FetchXMLQueries.BuildFindTagsAndTranslationsXML (_entityName s)
         (Js.interpolate (_intersectEntityName s)) (Js.interpolate (_entityId s))
         (_scope s) (_languageLCID s) in
     entities <- call (retrieveMultipleRecords_fetchXml (_entityName s) options)
                      (retrieve_fetchXml B (_entityName s) options) ;;
     tags <- lift (map_throwing (tag_of_attached s) entities) ;;
     modify_this (set_addedTags (Some tags)) ;;;
     ret tags)
    (fun err => throw (TagManagerServiceError (mkMessage "ErrGetAllTagsByRecordKey" []) err)).

(** [SearchTranslationsByName]. *)
Definition SearchTranslationsByName (name : string) : M W (list Tag.t) :=
  try_catch
    (s <- get_this ;;
     entities <- call (retrieveMultipleRecords "eax_tagtranslation"
                         (SearchTranslationsByName_query s name))
                      (retrieve_eax_tagtranslation B (SearchTranslationsByName_query s name)) ;;
     lift (map_throwing (tag_of_translation s) entities))
    (fun err => throw (TagManagerServiceError (mkMessage "ErrSearchTagTranslationsKey" []) err)).

(** [SearchByName]. *)
Definition SearchByName (name : string) : M W (list Tag.t) :=
  try_catch
    (s0 <- get_this ;;
     match _addedTags s0 with
     | None => loaded <- GetAllByRecordId ;; modify_this (set_addedTags (Some loaded))
     | Some _ => ret tt
     end ;;;
     s <- get_this ;;
     entities <- call (retrieveMultipleRecords "eax_tag" (SearchByName_query s name))
                      (retrieve_eax_tag B (SearchByName_query s name)) ;;
     let tags := map (tag_of_entity s) entities in
     translatedTags <- SearchTranslationsByName name ;;
     s1 <- get_this ;;
     match _addedTags s1 with
     | None => throw (TypeError "Cannot read property 'find' of undefined")
     | Some added => ret (allTags tags translatedTags added)
     end)
    (fun err => throw (TagManagerServiceError (mkMessage "ErrSearchTagsKey" []) err)).

(** [GetByName]. *)
Definition GetByName (name : string) : M W (option Tag.t) :=
  try_catch
    (s <- get_this ;;
     entities <- call (retrieveMultipleRecords "eax_tag" (GetByName_query name))
                      (retrieve_eax_tag B (GetByName_query name)) ;;
     match entities with
     | e :: _ => ret (Some (tag_of_entity s e))
     | [] => ret None
     end)
    (fun ex => throw (TagManagerServiceError
                        (mkMessage "ErrFindTagByNameKey" [("tagName", name)]) ex)).

(** [GetLanguageByLCID]. *)
Definition GetLanguageByLCID (lcid : string) : M W (option Language.t) :=
  try_catch
    (entities <- call (retrieveMultipleRecords "eax_language" (GetLanguageByLCID_query lcid))
                      (retrieve_eax_language B (GetLanguageByLCID_query lcid)) ;;
     match entities with
     | e :: _ =>
         ret (Some (Language.mk (LanguageEntity.eax_languageid e) (LanguageEntity.eax_lcid e)
                      (LanguageEntity.eax_code e) (LanguageEntity.eax_name e)))
     | [] => ret None
     end)
    (fun ex => throw (TagManagerServiceError (mkMessage "ErrFindLCIDKey" [("lcid", lcid)]) ex)).

(** [Relate]. *)
Definition Relate (primaryEntityId relatedEntityId primaryEntitySetName relationshipName
    relatedEntitySetName : string) : M W bool :=
  s <- get_this ;;
  let url := Relate_url s primaryEntityId primaryEntitySetName relationshipName in
  let odata_id := Relate_odata_id s relatedEntitySetName relatedEntityId in
  status <- call (axios_post url odata_id) (post B url odata_id) ;;
  ret (status =? 204).

(** [Create]. *)
Definition Create (tagName : string) : M W (option Tag.t) :=
  s <- get_this ;;
  let data := [("eax_name", tagName); ("eax_scope", _scope s)] in
  addedTagId <- call (createRecord "eax_tag" data) (create_eax_tag B data) ;;
  if negb (Js.truthy_value addedTagId)
  then throw (CustomError (mkMessage "ErrTagCreationKey" [("tagName", tagName)]))
  else
    language <- GetLanguageByLCID (_languageLCID s) ;;
    match language with
    | None =>
        throw (CustomError (mkMessage "ErrTagCreatedLCIDNotFoundKey"
                              [("tagName", tagName); ("languageLCID", _languageLCID s)]))
    | Some lang =>
        if negb (Js.truthy (Language.id lang))
        then throw (CustomError (mkMessage "ErrTagCreatedLCIDNotFoundKey"
                                   [("tagName", tagName); ("languageLCID", _languageLCID s)]))
        else
          setLanguageResponse <-
            Relate (Js.interpolate_value addedTagId) (Js.interpolate (Language.id lang))
                   "eax_tags" "eax_Language" "eax_languages" ;;
          if negb setLanguageResponse
          then throw (CustomError (mkMessage "ErrTagCreatedLanguageNotSetKey"
                                     [("tagName", tagName); ("languageLCID", _languageLCID s)]))
          else ret (Some (Tag.new tagName (_languageLCID s) (Some (_scope s)) (_languageLCID s)
                            false addedTagId (_entityId s)))
    end.

(** [tag && tag.id]. *)
Definition has_id (tag : option Tag.t) : bool :=
  match tag with
  | None => false
  | Some tg => Js.truthy_value (Tag.id tg)
  end.

(** [Add].  The argument of [GetByName] is the identifier [name], which is
    neither a parameter nor a local of [Add]: it is the global of the page.
    [tagId != undefined] holds of a string only. *)
Definition Add (tagName : string) (tagId : option string) : M W (option Tag.t) :=
  try_catch
    (s0 <- get_this ;;
     when (Js.is_null (_entitySetName s0)) LoadEntityMetadata ;;;
     s <- get_this ;;
     tag <- match tagId with
            | Some tid =>
                ret (Some (Tag.new tagName (_languageLCID s) (Some (_scope s))
                             (_languageLCID s) false (Js.str tid) (_entityId s)))
            | None =>
                name <- get_window_name ;;
                found <- GetByName name ;;
                if negb (has_id found) then Create tagName else ret found
            end ;;
     match tag with
     | Some tg =>
         if Js.truthy_value (Tag.id tg)
         then
           s1 <- get_this ;;
           relateResult <-
             Relate (Js.interpolate (_entityId s1)) (Js.interpolate_value (Tag.id tg))
                    (Js.interpolate (_entitySetName s1))
                    (Js.interpolate (_manyToManyRelationshipName s1)) "eax_tags" ;;
           if relateResult
           then
             let tg' := Tag.set_persisted true tg in
             s2 <- get_this ;;
             match _addedTags s2 with
             | None => throw (TypeError "Cannot read property 'push' of undefined")
             | Some added =>
                 modify_this (set_addedTags (Some (added ++ [tg'])%list)) ;;;
                 ret (Some tg')
             end
           else throw (CustomError (mkMessage "ErrTagRelationshipKey" [("tagName", tagName)]))
         else throw (CustomError (mkMessage "ErrTagCreationKey" [("tagName", tagName)]))
     | None => throw (CustomError (mkMessage "ErrTagCreationKey" [("tagName", tagName)]))
     end)
    (fun err => throw (TagManagerServiceError (mkMessage "ErrTagCreationRelationshipKey" []) err)).

(** [Remove].  [i.id != tagId] with [tagId] a string keeps the entries
    whose [id] is another string, [null] or [undefined]. *)
Definition Remove (tagId : option string) : M W bool :=
  try_catch
    (s0 <- get_this ;;
     match _entityId s0, tagId with
     | Some _, Some tid =>
         when (Js.is_null (_entitySetName s0)) LoadEntityMetadata ;;;
         s <- get_this ;;
         status <- call (axios_delete (Remove_url s tid)) (delete B (Remove_url s tid)) ;;
         s1 <- get_this ;;
         match _addedTags s1 with
         | None => throw (TypeError "Cannot read property 'filter' of undefined")
         | Some added =>
             modify_this (set_addedTags
               (Some (List.filter (fun i => negb (Js.loose_eq (Tag.id i) (Js.str tid)))
                        added))) ;;;
             ret (status =? 204)
         end
     | _, _ => ret false
     end)
    (fun err => throw (TagManagerServiceError (mkMessage "ErrTagRemovalKey" []) err)).

(** [Update]. *)
Definition Update (tagId name : string) : M W Tag.t :=
  throw (Error "Method Not Implemented Error.").

(** The first step of [Add] and of [Remove],
    [if (this._entitySetName == null) await this.LoadEntityMetadata()],
    succeeds from [st] and leaves [st0]. *)
Definition metadata_ready (st st0 : State W) : Prop :=
  when (Js.is_null (_entitySetName (this st))) LoadEntityMetadata st = (Return tt, st0).

End Methods.

(** [keeps proj m]: running [m] does not change the part [proj] of the
    service object, whether it returns or throws. *)
Definition keeps {W A X : Type} (proj : t -> X) (m : M W A) : Prop :=
  forall st, proj (this (snd (m st))) = proj (this st).

(** [keeps_on_throw proj m]: when [m] throws, the part [proj] of the
    service object is as it was. *)
Definition keeps_on_throw {W A X : Type} (proj : t -> X) (m : M W A) : Prop :=
  forall st e st', m st = (Throw e, st') -> proj (this st') = proj (this st).

End TagManagerService.


(** ** Two concrete backends, to run the service on *)

(** A backend that gives the same answers whatever it is asked. *)
Module Scripted.

Record t : Type := mk {
  tags : Outcome (list TagEntity.t);
  translations : Outcome (list TranslationEntity.t);
  languages : Outcome (list LanguageEntity.t);
  attached : Outcome (list AttachedEntity.t);
  created : Outcome Js.value;
  entitySetName : Outcome (option string);
  relationships : Outcome (option (list Relationship));
  posted : Outcome Z;
  deleted : Outcome Z
}.

Definition backend (a : t) : Backend unit :=
  mkBackend unit
    (fun _ w => (tags a, w))
    (fun _ w => (translations a, w))
    (fun _ w => (languages a, w))
    (fun _ _ w => (attached a, w))
    (fun _ w => (created a, w))
    (fun _ w => (entitySetName a, w))
    (fun _ w => (relationships a, w))
    (fun _ _ w => (posted a, w))
    (fun _ w => (deleted a, w)).

(** All tables empty, every write accepted. *)
Definition quiet : t :=
  mk (Return []) (Return []) (Return []) (Return [])
     (Return (Js.str "new-tag")) (Return (Some "accounts"))
     (Return (Some [mkRelationship (Some "eax_account_tag") (Some "eax_account_tags")]))
     (Return 204) (Return 204).

Definition with_deleted (d : Outcome Z) (a : t) : t :=
  mk (tags a) (translations a) (languages a) (attached a) (created a)
     (entitySetName a) (relationships a) (posted a) d.

Definition with_search (rows : Outcome (list TagEntity.t))
    (trs : Outcome (list TranslationEntity.t)) (a : t) : t :=
  mk rows trs (languages a) (attached a) (created a)
     (entitySetName a) (relationships a) (posted a) (deleted a).

Definition with_attached (r : Outcome (list AttachedEntity.t)) (a : t) : t :=
  mk (tags a) (translations a) (languages a) r (created a)
     (entitySetName a) (relationships a) (posted a) (deleted a).

End Scripted.

(** A backend with a table of tags in memory.  It answers a tag query with
    the rows that satisfy every [eq] condition of the query, cut at [top],
    and appends a row on creation.  Phrases and nested builders are not
    evaluated; the other tables are empty. *)
Module Store.

Definition property (field : string) (e : TagEntity.t) : option string :=
  if String.eqb field "eax_name" then Some (TagEntity.eax_name e)
  else if String.eqb field "eax_languagelcid" then Some (TagEntity.eax_languagelcid e)
  else if String.eqb field "eax_scope" then Some (TagEntity.eax_scope e)
  else if String.eqb field "eax_tagid"
       then match TagEntity.eax_tagid e with
            | Js.str s => Some s
            | _ => None
            end
  else None.

Definition holds (e : TagEntity.t) (f : QueryBuilder.Filter) : bool :=
  match f with
  | QueryBuilder.cond (QueryBuilder.filterExpression field operator value) =>
      if String.eqb operator "eq"
      then match property field e with
           | Some v => String.eqb v value
           | None => false
           end
      else true
  | _ => true
  end.

Definition cut {A : Type} (top : option Z) (l : list A) : list A :=
  match top with
  | Some n => firstn (Z.to_nat n) l
  | None => l
  end.

Definition run_query (q : QueryBuilder.Query) (table : list TagEntity.t) : list TagEntity.t :=
  cut (QueryBuilder.top q)
      (List.filter (fun e => forallb (holds e) (QueryBuilder.filter q)) table).

Definition lookup (k : string) (data : list (string * string)) : string :=
  match List.find (fun kv => String.eqb (fst kv) k) data with
  | Some kv => snd kv
  | None => ""
  end.

Definition backend : Backend (list TagEntity.t) :=
  mkBackend (list TagEntity.t)
    (fun q table => (Return (run_query q table), table))
    (fun _ table => (Return [], table))
    (fun _ table => (Return [LanguageEntity.mk (Some "lang-1") "en-us" "en" "English"], table))
    (fun _ _ table => (Return [], table))
    (fun data table =>
       (Return (Js.str "new-tag"),
        (table ++ [TagEntity.mk (lookup "eax_name" data) "" (lookup "eax_scope" data)
                     (Js.str "new-tag")])%list))
    (fun _ table => (Return (Some "accounts"), table))
    (fun _ table =>
       (Return (Some [mkRelationship (Some "eax_account_tag") (Some "eax_account_tags")]),
        table))
    (fun _ _ table => (Return 204, table))
    (fun _ table => (Return 204, table)).

End Store.


(** ** Concrete values used in the examples *)

Module Examples.

Definition attachedA : Tag.t :=
  Tag.new "Sales" "en-us" (Some "skills") "en-us" true (Js.str "A") (Some "rec-1").

Definition candA : Tag.t :=
  Tag.new "Sales" "en-us" (Some "skills") "en-us" true (Js.str "A") None.

Definition candB : Tag.t :=
  Tag.new "Support" "en-us" (Some "skills") "en-us" true (Js.str "B") None.



(** A service for the record [rec-1], viewer locale [en-us], scope
    [skills], with the relationship names configured. *)
Definition service : TagManagerService.t :=
  TagManagerService.new "skills" "en-us" "account" (Some "rec-1")
    "https://org.crm.dynamics.com" "eax_account_tag" "eax_account_tags" "/api/data/v9.1".

(** The same service on a form whose record has no identifier yet. *)
Definition service_no_record : TagManagerService.t :=
  TagManagerService.new "skills" "en-us" "account" None
    "https://org.crm.dynamics.com" "eax_account_tag" "eax_account_tags" "/api/data/v9.1".

Definition state_of (s : TagManagerService.t) (added : option (list Tag.t))
    : TagManagerService.State unit :=
  TagManagerService.mkState (TagManagerService.set_addedTags added s) tt [] "".

Definition attached_row : AttachedEntity.t :=
  AttachedEntity.mk "Sales" "en-us" "skills" (Js.str "A") None None.

(** The tag table holds [sales] in the scope and locale of the service. *)
Definition store_state : TagManagerService.State (list TagEntity.t) :=
  TagManagerService.mkState (TagManagerService.set_addedTags (Some []) service)
    [TagEntity.mk "sales" "en-us" "skills" (Js.str "T1")] [] "".

(** The tag table holds [sales] in another scope and another locale, and
    the page is named [sales]. *)
Definition store_state_other_scope : TagManagerService.State (list TagEntity.t) :=
  TagManagerService.mkState (TagManagerService.set_addedTags (Some []) service)
    [TagEntity.mk "sales" "pt-br" "colors" (Js.str "T9")] [] "sales".

Definition quiet_backend : Backend unit := Scripted.backend Scripted.quiet.

(** The attached tags query answers with one row. *)
Definition one_attached_backend : Backend unit :=
  Scripted.backend (Scripted.with_attached (Return [attached_row]) Scripted.quiet).

(** The link removal fails in transport. *)
Definition failing_delete_backend : Backend unit :=
  Scripted.backend (Scripted.with_deleted (Throw (Error "Network Error")) Scripted.quiet).

(** The tag query answers [Sales], the translation query [Ventas], both
    for the tag [A]. *)
Definition sales_ventas_backend : Backend unit :=
  Scripted.backend
    (Scripted.with_search
       (Return [TagEntity.mk "Sales" "en-us" "skills" (Js.str "A")])
       (Return [TranslationEntity.mk "Ventas" "es-mx" None (Some (Js.str "A"))])
       Scripted.quiet).

(** The service of a viewer in [es-mx], nothing attached. *)
Definition spanish_state : TagManagerService.State unit :=
  state_of
    (TagManagerService.new "skills" "es-mx" "account" (Some "rec-1")
       "https://org.crm.dynamics.com" "eax_account_tag" "eax_account_tags" "/api/data/v9.1")
    (Some []).

Definition loaded_state : TagManagerService.State unit :=
  state_of service (Some [attachedA; candB]).

Definition unloaded_state : TagManagerService.State unit :=
  state_of service None.

Definition no_record_state : TagManagerService.State unit :=
  state_of service_no_record (Some []).

End Examples.


(** ** Notions used in the statements *)

(** What the constructor and [Translate] maintain on a tag. *)
Definition well_formed_tag (tg : Tag.t) : Prop :=
  Tag.value tg = Tag.name tg
  /\ Js.toLowerCase (Tag.lcid tg) = Tag.lcid tg
  /\ (Tag.preference tg = 1 \/ Tag.preference tg = 2 \/ Tag.preference tg = 3).

(** A sequence of [Translate] calls, each with its name, locale and viewer
    locale. *)
Definition translate_all (tg : Tag.t) (calls : list (string * string * string)) : Tag.t :=
  fold_left (fun t c => Tag.Translate t (fst (fst c)) (snd (fst c)) (snd c)) calls tg.

(** [a] is displayed no later than [b]. *)
Definition ranked_before (a b : Tag.t) : Prop := Tag.preference a <= Tag.preference b.

(** [e] stands for the candidate [c] in a result list: same display name
    or same identifier. *)
Definition stands_for (e c : Tag.t) : Prop :=
  Tag.name e = Tag.name c \/ Tag.id e = Tag.id c.

(** The candidate [c] has the identifier of an attached tag. *)
Definition is_attached (added : list Tag.t) (c : Tag.t) : Prop :=
  exists a, In a added /\ Tag.id a = Tag.id c.

(** Kinds of requests. *)
Definition is_read (r : Request) : Prop :=
  match r with
  | retrieveMultipleRecords _ _ | retrieveMultipleRecords_fetchXml _ _ | axios_get _ => True
  | createRecord _ _ | axios_post _ _ | axios_delete _ => False
  end.

Definition is_not_delete (r : Request) : Prop :=
  match r with
  | axios_delete _ => False
  | _ => True
  end.

(** [issues P m]: whatever the state and the backend's answers, a run of
    [m] keeps the requests issued before it and adds requests of kind [P]
    only. *)
Definition issues {W A : Type} (P : Request -> Prop) (m : TagManagerService.M W A) : Prop :=
  forall st, exists rs,
    TagManagerService.requests (snd (m st)) = (TagManagerService.requests st ++ rs)%list
    /\ Forall P rs.


(** ** More concrete values *)

Module MoreExamples.

(** The entity set name is answered, the relationship request fails. *)
Definition half_backend : Backend unit :=
  Scripted.backend
    (Scripted.mk (Return []) (Return []) (Return []) (Return [])
       (Return (Js.str "new-tag")) (Return (Some "accounts"))
       (Throw (Error "Network Error")) (Return 204) (Return 204)).

(** A service with no relationship name and no intersect entity name
    configured, attached set loaded and empty. *)
Definition unconfigured_state : TagManagerService.State unit :=
  Examples.state_of
    (TagManagerService.new "skills" "en-us" "account" (Some "rec-1")
       "https://org.crm.dynamics.com" "" "" "/api/data/v9.1")
    (Some []).

(** The service of a viewer in [es-mx]. *)
Definition spanish_service : TagManagerService.t :=
  TagManagerService.new "skills" "es-mx" "account" (Some "rec-1")
    "https://org.crm.dynamics.com" "eax_account_tag" "eax_account_tags" "/api/data/v9.1".

(** The attached tag [Sales], in [en-us], with its translation [Ventas]. *)
Definition translated_row : AttachedEntity.t :=
  AttachedEntity.mk "Sales" "EN-US" "skills" (Js.str "A") (Some "Ventas") (Some "es-MX").

(** The tag [A] as [Add] returns it when it is picked from the list. *)
Definition picked : Tag.t :=
  Tag.set_persisted true
    (Tag.new "Sales" "en-us" (Some "skills") "en-us" false (Js.str "A") (Some "rec-1")).




(** The fresh tag [Sales] and the translation [Ventas] of the tag [A], for
    a viewer in [es-mx]. *)
Definition sales : Tag.t :=
  Tag.new "Sales" "en-us" (Some "skills") "es-mx" true (Js.str "A") None.

Definition ventas : Tag.t :=
  Tag.new "Ventas" "es-mx" None "es-mx" true (Js.str "A") None.


(** The attached set holds [Support] only. *)
Definition support_state : TagManagerService.State unit :=
  Examples.state_of Examples.service (Some [Examples.candB]).

End MoreExamples.

(** What the control configures once, at construction. *)
Definition configuration (s : TagManagerService.t)
    : string * string * string * string * option string * string * string :=
  (TagManagerService._scope s, TagManagerService._languageLCID s,
   TagManagerService._languageCode s, TagManagerService._entityName s,
   TagManagerService._entityId s, TagManagerService._crmHost s,
   TagManagerService._webApiBasePath s).


(** * Properties *)

(** ** JavaScript primitives *)

Lemma strict_eq_true (a b : Js.value) : Js.strict_eq a b = true <-> a = b.
Proof.
  destruct a as [| |x], b as [| |y]; simpl; split; intro H;
    try discriminate; try reflexivity.
  - apply String.eqb_eq in H. now subst.
  - inversion H. apply String.eqb_refl.
Qed.

(** Against a string, [==] is [===]. *)
Lemma loose_eq_str (a : Js.value) (s : string) :
  Js.loose_eq a (Js.str s) = Js.strict_eq a (Js.str s).
Proof. destruct a; reflexivity. Qed.

Lemma strict_eq_false (a b : Js.value) : Js.strict_eq a b = false <-> a <> b.
Proof.
  rewrite <- strict_eq_true. destruct (Js.strict_eq a b); split; intro H;
    try discriminate; try reflexivity; try congruence.
Qed.

Lemma loose_eq_str_false (a : Js.value) (s : string) :
  Js.loose_eq a (Js.str s) = false <-> a <> Js.str s.
Proof. rewrite loose_eq_str. apply strict_eq_false. Qed.

Lemma lower_char_idempotent (c : ascii) : Js.lower_char (Js.lower_char c) = Js.lower_char c.
Proof.
  destruct c as [[] [] [] [] [] [] [] []]; reflexivity.
Qed.

Lemma lower_char_hyphen (c : ascii) :
  Ascii.eqb (Js.lower_char c) "-"%char = Ascii.eqb c "-"%char.
Proof.
  destruct c as [[] [] [] [] [] [] [] []]; reflexivity.
Qed.

Lemma toLowerCase_idempotent (s : string) :
  Js.toLowerCase (Js.toLowerCase s) = Js.toLowerCase s.
Proof.
  induction s as [|c r IH]; simpl; [reflexivity|].
  now rewrite lower_char_idempotent, IH.
Qed.

(** Lower-casing neither makes nor removes a hyphen, so it commutes with
    taking the language subtag. *)
Lemma split_hyphen_0_toLowerCase (s : string) :
  Js.split_hyphen_0 (Js.toLowerCase s) = Js.toLowerCase (Js.split_hyphen_0 s).
Proof.
  induction s as [|c r IH]; simpl; [reflexivity|].
  rewrite lower_char_hyphen.
  destruct (Ascii.eqb c "-"%char); simpl; [reflexivity|].
  now rewrite IH.
Qed.

Lemma find_none_forall {A : Type} (p : A -> bool) (l : list A) :
  Js.find p l = None -> forall x, In x l -> p x = false.
Proof.
  unfold Js.find. intros H x Hx. exact (List.find_none p l H x Hx).
Qed.

Lemma find_some_exists {A : Type} (p : A -> bool) (l : list A) (x : A) :
  Js.find p l = Some x -> In x l /\ p x = true.
Proof.
  unfold Js.find. apply List.find_some.
Qed.

Lemma find_all_false {A : Type} (p : A -> bool) (l : list A) :
  (forall x, In x l -> p x = false) -> Js.find p l = None.
Proof.
  unfold Js.find. induction l as [|y r IH]; simpl; intro H; [reflexivity|].
  rewrite (H y (or_introl eq_refl)). apply IH. intros x Hx. apply H. now right.
Qed.

(** A property of the accumulator that the callback keeps holds of the
    result of [reduce]. *)
Lemma reduce_invariant {A B : Type} (P : B -> Prop) (f : B -> A -> B) (l : list A) :
  forall init, P init -> (forall b a, P b -> P (f b a)) -> P (Js.reduce f init l).
Proof.
  unfold Js.reduce. induction l as [|x r IH]; simpl; intros init Hinit Hstep.
  - exact Hinit.
  - apply IH; [apply Hstep; exact Hinit | exact Hstep].
Qed.

Lemma NoDup_snoc {A : Type} (l : list A) (x : A) :
  NoDup l -> ~ In x l -> NoDup (l ++ [x]).
Proof.
  induction l as [|y r IH]; simpl; intros Hnd Hnin.
  - constructor; [intros [] | constructor].
  - inversion Hnd as [|y' r' Hy Hr]; subst. constructor.
    + rewrite in_app_iff. simpl. intros [H | [H | []]]; [contradiction|].
      subst. apply Hnin. now left.
    + apply IH; [assumption|]. intro H. apply Hnin. now right.
Qed.

(** ** Preference ranking *)

(** The rank is always one of the three tiers. *)
Lemma CalculatePreference_range (tg : Tag.t) (userlcid : string) :
  let p := Tag.preference (Tag.CalculatePreference tg userlcid) in
  p = 1 \/ p = 2 \/ p = 3.
Proof.
  unfold Tag.CalculatePreference.
  destruct (String.eqb (Tag.lcid tg) userlcid); [now left|].
  destruct (String.eqb _ _); simpl; auto.
Qed.

Lemma new_preference (name lcid : string) (scope : option string) (userlcid : string)
    (persisted : bool) (tagId : Js.value) (recordId : option string) :
  Tag.preference (Tag.new name lcid scope userlcid persisted tagId recordId) =
  if String.eqb (Js.toLowerCase lcid) userlcid then 1
  else if String.eqb (Js.split_hyphen_0 (Js.toLowerCase lcid)) (Js.split_hyphen_0 userlcid)
       then 2 else 3.
Proof.
  unfold Tag.new, Tag.CalculatePreference. simpl.
  destruct (String.eqb (Js.toLowerCase lcid) userlcid); [reflexivity|].
  destruct (String.eqb _ _); reflexivity.
Qed.

(** The service stores the viewer locale lower-cased. *)
Lemma new_languageLCID (scope languageLCID entityName : string) (entityId : option string)
    (crmHost m2m intersect basePath : string) :
  TagManagerService._languageLCID
    (TagManagerService.new scope languageLCID entityName entityId crmHost m2m intersect basePath)
  = Js.toLowerCase languageLCID.
Proof. reflexivity. Qed.

(** C4 (as amended).  For every tag locale [L] and viewer locale [V], in any
    mix of cases, a tag that is built against the viewer locale of the
    service, which the service constructor lower-cases, has rank 1 when [L]
    and [V] are the same locale after lower-casing, rank 2 when they are not
    but their language subtags (the text before the first hyphen) are the
    same after lower-casing, and rank 3 otherwise. *)
Theorem preference_rank_case_insensitive :
  forall (scope V entityName : string) (entityId : option string)
         (crmHost m2m intersect basePath : string)
         (name L : string) (tagScope : option string) (persisted : bool)
         (tagId : Js.value) (recordId : option string),
    let s := TagManagerService.new scope V entityName entityId crmHost m2m intersect basePath in
    Tag.preference
      (Tag.new name L tagScope (TagManagerService._languageLCID s) persisted tagId recordId)
    = if String.eqb (Js.toLowerCase L) (Js.toLowerCase V) then 1
      else if String.eqb (Js.toLowerCase (Js.split_hyphen_0 L))
                         (Js.toLowerCase (Js.split_hyphen_0 V))
           then 2 else 3.
Proof.
  intros. subst s. rewrite new_languageLCID, new_preference.
  now rewrite !split_hyphen_0_toLowerCase.
Qed.

(** C4 (as stated) fails on the [Tag] constructor alone: it lower-cases the
    tag locale and compares it with the viewer locale as given.  The tag
    locale [EN-US] and the viewer locale [EN-US] are the same locale, and
    the rank is 3. *)
Lemma preference_mixed_case_viewer :
  Js.toLowerCase "EN-US" = Js.toLowerCase "EN-US"
  /\ Tag.preference (Tag.new "Sales" "EN-US" (Some "skills") "EN-US" true (Js.str "A") None) = 3
  /\ Tag.preference (Tag.new "Sales" "EN-US" (Some "skills") "EN-US" true (Js.str "A") None) <> 1.
Proof.
  repeat split; try reflexivity. vm_compute. discriminate.
Qed.

(** ** The resolution step of [SearchByName] *)

(** What one call of the callback can do. *)
Lemma allTags_callback_cases (added acc : list Tag.t) (item : Tag.t) :
  TagManagerService.allTags_callback added acc item = acc
  \/ (TagManagerService.allTags_callback added acc item = (acc ++ [item])%list
      /\ (forall i, In i added -> Tag.id i <> Tag.id item)
      /\ (forall e, In e acc ->
            Tag.name e <> Tag.name item /\ Tag.id e <> Tag.id item)).
Proof.
  unfold TagManagerService.allTags_callback.
  destruct (Js.find _ added) eqn:Ha; [now left|].
  destruct (Js.find _ acc) eqn:Hc; [now left|].
  right. split; [reflexivity|]. split.
  - intros i Hi. apply strict_eq_false.
    exact (find_none_forall _ _ Ha i Hi).
  - intros e He. pose proof (find_none_forall _ _ Hc e He) as H. simpl in H.
    apply orb_false_iff in H. destruct H as [Hn Hi]. split.
    + now apply String.eqb_neq.
    + now apply strict_eq_false.
Qed.

Lemma in_map_snoc {A B : Type} (f : A -> B) (l : list A) (x : A) :
  map f (l ++ [x]) = (map f l ++ [f x])%list.
Proof. now rewrite map_app. Qed.

(** C2.  Whatever the fresh, translated and attached tags are, no two
    entries of the result of the resolution step have the same identifier
    and no two have the same display name. *)
Theorem allTags_no_duplicates :
  forall tags translatedTags added : list Tag.t,
    NoDup (map Tag.id (TagManagerService.allTags tags translatedTags added))
    /\ NoDup (map Tag.name (TagManagerService.allTags tags translatedTags added)).
Proof.
  intros tags translatedTags added. unfold TagManagerService.allTags.
  apply (reduce_invariant
           (fun acc => NoDup (map Tag.id acc) /\ NoDup (map Tag.name acc))).
  - split; constructor.
  - intros acc item [Hid Hname].
    destruct (allTags_callback_cases added acc item) as [-> | [-> [_ Hacc]]].
    + now split.
    + rewrite !in_map_snoc. split; apply NoDup_snoc; try assumption.
      * intro Hin. apply in_map_iff in Hin. destruct Hin as [e [He Hine]].
        now destruct (Hacc e Hine).
      * intro Hin. apply in_map_iff in Hin. destruct Hin as [e [He Hine]].
        now destruct (Hacc e Hine).
Qed.

(** C3.  Whatever the fresh, translated and attached tags are, no entry of
    the result of the resolution step has the identifier of an attached
    tag. *)
Theorem allTags_excludes_attached :
  forall (tags translatedTags added : list Tag.t) (e a : Tag.t),
    In e (TagManagerService.allTags tags translatedTags added) ->
    In a added ->
    Tag.id e <> Tag.id a.
Proof.
  intros tags translatedTags added e a He Ha. revert e He.
  unfold TagManagerService.allTags.
  apply (reduce_invariant
           (fun acc => forall e, In e acc -> Tag.id e <> Tag.id a)).
  - intros e [].
  - intros acc item IH e He.
    destruct (allTags_callback_cases added acc item) as [Heq | [Heq [Hadd _]]];
      rewrite Heq in He.
    + now apply IH.
    + apply in_app_iff in He. destruct He as [He | [<- | []]].
      * now apply IH.
      * intro H. now apply (Hadd a Ha).
Qed.

Lemma allTags_excludes_attached_witness :
  TagManagerService.allTags [Examples.candA; Examples.candB] [] [Examples.attachedA]
    = [Examples.candB]
  /\ Tag.id Examples.candB <> Tag.id Examples.attachedA.
Proof.
  split; [reflexivity|].
  apply (allTags_excludes_attached [Examples.candA; Examples.candB] [] [Examples.attachedA]
           Examples.candB Examples.attachedA).
  - vm_compute. left. reflexivity.
  - simpl. left. reflexivity.
Defined.

(** What the callback does with a candidate that matches no attached tag and
    whose display name is not in the result list: the identifier decides.
    The candidate is skipped exactly when the result list holds an entry
    with the same identifier value; [undefined] counts as such a value, and
    so does [null]. *)
Lemma allTags_callback_new_name :
  forall (added acc : list Tag.t) (item : Tag.t),
    (forall i, In i added -> Tag.id i <> Tag.id item) ->
    (forall e, In e acc -> Tag.name e <> Tag.name item) ->
    TagManagerService.allTags_callback added acc item
    = if existsb (fun e => Js.strict_eq (Tag.id e) (Tag.id item)) acc then acc
      else (acc ++ [item])%list.
Proof.
  intros added acc item Hadded Hname.
  unfold TagManagerService.allTags_callback.
  rewrite find_all_false.
  2:{ intros i Hi. apply strict_eq_false. now apply Hadded. }
  induction acc as [|e r IH]; [reflexivity|].
  unfold Js.find in *. simpl.
  assert (Hne : String.eqb (Tag.name e) (Tag.name item) = false).
  { apply String.eqb_neq. apply Hname. now left. }
  rewrite Hne. simpl.
  destruct (Js.strict_eq (Tag.id e) (Tag.id item)); [reflexivity|]. simpl.
  assert (Hr : forall e', In e' r -> Tag.name e' <> Tag.name item).
  { intros e' He'. apply Hname. now right. }
  specialize (IH Hr).
  destruct (find _ r); destruct (existsb _ r); try reflexivity;
    simpl in IH; congruence.
Qed.


(** ** The service: what a method leaves in place *)

Section Frame.

Import TagManagerService.
Context {W : Type} (B : Backend W).

Lemma keeps_ret {A X : Type} (proj : TagManagerService.t -> X) (a : A) :
  keeps proj (@ret W A a).
Proof. intro st. reflexivity. Qed.

Lemma keeps_throw {A X : Type} (proj : TagManagerService.t -> X) (e : JsError) :
  keeps proj (@throw W A e).
Proof. intro st. reflexivity. Qed.

Lemma keeps_lift {A X : Type} (proj : TagManagerService.t -> X) (o : Outcome A) :
  keeps proj (@lift W A o).
Proof. intro st. reflexivity. Qed.

Lemma keeps_get_this {X : Type} (proj : TagManagerService.t -> X) :
  keeps proj (@get_this W).
Proof. intro st. reflexivity. Qed.

Lemma keeps_get_window_name {X : Type} (proj : TagManagerService.t -> X) :
  keeps proj (@get_window_name W).
Proof. intro st. reflexivity. Qed.

Lemma keeps_call {A X : Type} (proj : TagManagerService.t -> X) (r : Request)
    (op : W -> Outcome A * W) :
  keeps proj (call r op).
Proof. intro st. unfold call. destruct (op (world st)). reflexivity. Qed.

Lemma keeps_modify_this {X : Type} (proj : TagManagerService.t -> X)
    (f : TagManagerService.t -> TagManagerService.t) :
  (forall s, proj (f s) = proj s) -> keeps proj (@modify_this W f).
Proof. intros H st. simpl. apply H. Qed.

Lemma keeps_bind {A C X : Type} (proj : TagManagerService.t -> X) (m : M W A)
    (k : A -> M W C) :
  keeps proj m -> (forall a, keeps proj (k a)) -> keeps proj (bind m k).
Proof.
  intros Hm Hk st. unfold bind. specialize (Hm st).
  destruct (m st) as [[a|e] st']; simpl in *.
  - rewrite Hk. exact Hm.
  - exact Hm.
Qed.

Lemma keeps_try_catch {A X : Type} (proj : TagManagerService.t -> X) (m : M W A)
    (h : JsError -> M W A) :
  keeps proj m -> (forall e, keeps proj (h e)) -> keeps proj (try_catch m h).
Proof.
  intros Hm Hh st. unfold try_catch. specialize (Hm st).
  destruct (m st) as [[a|e] st']; simpl in *.
  - exact Hm.
  - rewrite Hh. exact Hm.
Qed.

Lemma keeps_when {X : Type} (proj : TagManagerService.t -> X) (c : bool) (m : M W unit) :
  keeps proj m -> keeps proj (when c m).
Proof. intro H. destruct c; [exact H | apply keeps_ret]. Qed.

End Frame.

Create HintDb frame.

#[global] Hint Resolve keeps_ret keeps_throw keeps_lift keeps_get_this
  keeps_get_window_name keeps_call keeps_when : frame.

(** Decompose a method into its steps; what is left are the assignments to
    the service object. *)
Ltac frame_step :=
  match goal with
  | |- TagManagerService.keeps _ (TagManagerService.bind _ _) => apply keeps_bind; [| intro]
  | |- TagManagerService.keeps _ (TagManagerService.try_catch _ _) => apply keeps_try_catch; [| intro]
  | |- TagManagerService.keeps _ (TagManagerService.when _ _) => apply keeps_when
  | |- TagManagerService.keeps _ (TagManagerService.modify_this _) =>
      apply keeps_modify_this; intro; reflexivity
  | |- TagManagerService.keeps _ (match ?x with _ => _ end) => destruct x
  | |- TagManagerService.keeps _ (if ?x then _ else _) => destruct x
  | |- TagManagerService.keeps _ _ => solve [auto with frame]
  end.

Ltac frame := repeat frame_step.

Section ServiceFrame.

Import TagManagerService.
Context {W : Type} (B : Backend W).

Lemma LoadEntityMetadata_keeps_addedTags : keeps _addedTags (LoadEntityMetadata B).
Proof. unfold LoadEntityMetadata. frame. Qed.

Lemma LoadEntityMetadata_keeps_entityId : keeps _entityId (LoadEntityMetadata B).
Proof. unfold LoadEntityMetadata. frame. Qed.

Lemma SearchTranslationsByName_keeps {X : Type} (proj : TagManagerService.t -> X)
    (name : string) :
  keeps proj (SearchTranslationsByName B name).
Proof. unfold SearchTranslationsByName. frame. Qed.

Lemma GetByName_keeps {X : Type} (proj : TagManagerService.t -> X) (name : string) :
  keeps proj (GetByName B name).
Proof. unfold GetByName. frame. Qed.

Lemma GetLanguageByLCID_keeps {X : Type} (proj : TagManagerService.t -> X) (lcid : string) :
  keeps proj (GetLanguageByLCID B lcid).
Proof. unfold GetLanguageByLCID. frame. Qed.

Lemma Relate_keeps {X : Type} (proj : TagManagerService.t -> X) (a b c d e : string) :
  keeps proj (Relate B a b c d e).
Proof. unfold Relate. frame. Qed.

Lemma Create_keeps {X : Type} (proj : TagManagerService.t -> X) (tagName : string) :
  keeps proj (Create B tagName).
Proof.
  unfold Create. frame; try apply GetLanguageByLCID_keeps; apply Relate_keeps.
Qed.

End ServiceFrame.

(** ** The service: running a method step by step *)

Section Steps.

Import TagManagerService.
Context {W : Type} (B : Backend W).

Lemma bind_get_this {A : Type} (k : TagManagerService.t -> M W A) (st : State W) :
  bind get_this k st = k (this st) st.
Proof. reflexivity. Qed.

Lemma bind_get_window_name {A : Type} (k : string -> M W A) (st : State W) :
  bind get_window_name k st = k (window_name st) st.
Proof. reflexivity. Qed.

Lemma bind_Return {A C : Type} (m : M W A) (k : A -> M W C) (st st' : State W) (a : A) :
  m st = (Return a, st') -> bind m k st = k a st'.
Proof. intro H. unfold bind. now rewrite H. Qed.

Lemma bind_Throw {A C : Type} (m : M W A) (k : A -> M W C) (st st' : State W) (e : JsError) :
  m st = (Throw e, st') -> bind m k st = (Throw e, st').
Proof. intro H. unfold bind. now rewrite H. Qed.

Lemma try_catch_Return {A : Type} (m : M W A) (h : JsError -> M W A)
    (st st' : State W) (a : A) :
  m st = (Return a, st') -> try_catch m h st = (Return a, st').
Proof. intro H. unfold try_catch. now rewrite H. Qed.


Lemma call_answer {A : Type} (r : Request) (op : W -> Outcome A * W) (st : State W)
    (res : Outcome A) (w' : W) :
  op (world st) = (res, w') ->
  call r op st = (res, mkState (this st) w' (requests st ++ [r]) (window_name st)).
Proof. intro H. unfold call. now rewrite H. Qed.

(** [Remove], once the record has an identifier and the metadata step has
    succeeded: the request goes out, and the answer decides the rest. *)
Lemma Remove_run (st st0 : State W) (tid eid : string) (res : Outcome Z) (w' : W) :
  _entityId (this st) = Some eid ->
  metadata_ready B st st0 ->
  delete B (Remove_url (this st0) tid) (world st0) = (res, w') ->
  let st1 := mkState (this st0) w'
               (requests st0 ++ [axios_delete (Remove_url (this st0) tid)])
               (window_name st0) in
  Remove B (Some tid) st =
  match res, _addedTags (this st0) with
  | Return status, Some added =>
      (Return (status =? 204),
       mkState (set_addedTags
                  (Some (List.filter (fun i => negb (Js.loose_eq (Tag.id i) (Js.str tid))) added))
                  (this st0))
               w' (requests st1) (window_name st0))
  | Return _, None =>
      (Throw (TagManagerServiceError (mkMessage "ErrTagRemovalKey" [])
                (TypeError "Cannot read property 'filter' of undefined")), st1)
  | Throw err, _ =>
      (Throw (TagManagerServiceError (mkMessage "ErrTagRemovalKey" []) err), st1)
  end.
Proof.
  intros Hid Hmeta Hdel st1. unfold metadata_ready in Hmeta.
  unfold Remove, try_catch. rewrite bind_get_this, Hid.
  rewrite (bind_Return _ _ _ _ _ Hmeta). rewrite bind_get_this.
  pose proof (call_answer (axios_delete (Remove_url (this st0) tid)) _ st0 _ _ Hdel) as Hcall.
  destruct res as [status|err].
  - rewrite (bind_Return _ _ _ _ _ Hcall). rewrite bind_get_this. simpl.
    destruct (_addedTags (this st0)); reflexivity.
  - rewrite (bind_Throw _ _ _ _ _ Hcall). reflexivity.
Qed.

Lemma Remove_metadata_fails (st st0 : State W) (tid eid : string) (e : JsError) :
  _entityId (this st) = Some eid ->
  when (Js.is_null (_entitySetName (this st))) (LoadEntityMetadata B) st = (Throw e, st0) ->
  Remove B (Some tid) st
  = (Throw (TagManagerServiceError (mkMessage "ErrTagRemovalKey" []) e), st0).
Proof.
  intros Hid Hmeta. unfold Remove, try_catch. rewrite bind_get_this, Hid.
  rewrite (bind_Throw _ _ _ _ _ Hmeta). reflexivity.
Qed.

(** Without a record identifier, [Remove] returns [false] and does nothing
    else. *)
Lemma Remove_no_record_id (st : State W) (tagId : option string) :
  _entityId (this st) = None -> Remove B tagId st = (Return false, st).
Proof.
  intro Hid. unfold Remove, try_catch. rewrite bind_get_this, Hid. reflexivity.
Qed.

Lemma metadata_ready_keeps_addedTags (st st0 : State W) :
  metadata_ready B st st0 -> _addedTags (this st0) = _addedTags (this st).
Proof.
  unfold metadata_ready. intro H.
  pose proof (keeps_when _addedTags (Js.is_null (_entitySetName (this st)))
                (LoadEntityMetadata B) (LoadEntityMetadata_keeps_addedTags B) st) as Hk.
  rewrite H in Hk. exact Hk.
Qed.

End Steps.

Section SearchAndRemove.

Import TagManagerService.
Context {W : Type} (B : Backend W).

Lemma try_catch_keeps_at {A X : Type} (proj : TagManagerService.t -> X) (m : M W A)
    (h : JsError -> M W A) (st : State W) :
  proj (this (snd (m st))) = proj (this st) ->
  (forall e, keeps proj (h e)) ->
  proj (this (snd (try_catch m h st))) = proj (this st).
Proof.
  intros Hm Hh. unfold try_catch. destruct (m st) as [[a|e] st']; simpl in *.
  - exact Hm.
  - rewrite Hh. exact Hm.
Qed.

(** C7 (as amended).  Once the attached set has been loaded, [SearchByName]
    leaves it as it is, for every input string and every backend, whether
    the search returns or throws. *)
Theorem SearchByName_keeps_loaded_addedTags :
  forall (name : string) (st : State W) (added : list Tag.t),
    _addedTags (this st) = Some added ->
    _addedTags (this (snd (SearchByName B name st))) = Some added.
Proof.
  intros name st added H.
  transitivity (_addedTags (this st)); [| exact H].
  unfold SearchByName.
  apply try_catch_keeps_at; [| intro e; apply keeps_throw].
  rewrite bind_get_this, H.
  match goal with
  | |- _ (this (snd (?m st))) = _ => assert (Hk : keeps _addedTags m)
  end.
  { frame. apply SearchTranslationsByName_keeps. }
  rewrite Hk. exact H.
Qed.

(** The other case: from a state where the attached set has not been
    loaded, [SearchByName] stores what [GetAllByRecordId] returns. *)
Lemma SearchByName_lazy_load :
  forall (name : string) (st st1 : State W) (loaded : list Tag.t),
    _addedTags (this st) = None ->
    GetAllByRecordId B st = (Return loaded, st1) ->
    _addedTags (this (snd (SearchByName B name st))) = Some loaded.
Proof.
  intros name st st1 loaded Hnone Hload. unfold SearchByName.
  assert (Hcatch : forall (m : M W (list Tag.t)) (h : JsError -> M W (list Tag.t)),
             (forall e, keeps _addedTags (h e)) ->
             _addedTags (this (snd (try_catch m h st)))
             = _addedTags (this (snd (m st)))).
  { intros m h Hh. unfold try_catch. destruct (m st) as [[a|e] st']; simpl.
    - reflexivity.
    - apply Hh. }
  rewrite Hcatch by (intro e; apply keeps_throw).
  rewrite bind_get_this, Hnone.
  erewrite bind_Return by (erewrite bind_Return by exact Hload; reflexivity).
  match goal with
  | |- _ (this (snd (?m ?s))) = _ => assert (Hk : keeps _addedTags m)
  end.
  { frame. apply SearchTranslationsByName_keeps. }
  rewrite Hk. reflexivity.
Qed.


Lemma filter_keeps_all {A : Type} (f : A -> bool) (l : list A) :
  (forall x, In x l -> f x = true) -> List.filter f l = l.
Proof.
  induction l as [|x r IH]; simpl; intro H; [reflexivity|].
  rewrite (H x (or_introl eq_refl)). f_equal. apply IH. intros y Hy. apply H. now right.
Qed.

(** C8 (as amended).  When the record has an identifier: for every tag
    identifier, attached or not, [Remove] issues the link removal as soon as
    the entity metadata is there; and after a call that does not throw, the
    returned boolean tells whether the removal answered 204, the attached
    set is the former one without the entries of that identifier, so it
    holds none, and it is the former one when none had it. *)
Theorem Remove_issues_removal_and_filters :
  forall (st : State W) (tid eid : string),
    _entityId (this st) = Some eid ->
    (forall st0, metadata_ready B st st0 ->
       requests (snd (Remove B (Some tid) st))
       = (requests st0 ++ [axios_delete (Remove_url (this st0) tid)])%list)
    /\ (forall b st', Remove B (Some tid) st = (Return b, st') ->
          exists st0 status w' added,
            metadata_ready B st st0
            /\ delete B (Remove_url (this st0) tid) (world st0) = (Return status, w')
            /\ b = (status =? 204)
            /\ _addedTags (this st) = Some added
            /\ _addedTags (this st')
               = Some (List.filter (fun i => negb (Js.loose_eq (Tag.id i) (Js.str tid))) added)
            /\ (forall added', _addedTags (this st') = Some added' ->
                  forall i, In i added' -> Tag.id i <> Js.str tid)
            /\ ((forall i, In i added -> Tag.id i <> Js.str tid) ->
                  _addedTags (this st') = Some added)).
Proof.
  intros st tid eid Hid. split.
  - intros st0 Hmeta.
    destruct (delete B (Remove_url (this st0) tid) (world st0)) as [res w'] eqn:Hdel.
    rewrite (Remove_run B st st0 tid eid res w' Hid Hmeta Hdel).
    destruct res; destruct (_addedTags (this st0)); reflexivity.
  - intros b st' Hrun.
    destruct (when (Js.is_null (_entitySetName (this st))) (LoadEntityMetadata B) st)
      as [[[]|e] st0] eqn:Hmeta.
    + destruct (delete B (Remove_url (this st0) tid) (world st0)) as [res w'] eqn:Hdel.
      rewrite (Remove_run B st st0 tid eid res w' Hid Hmeta Hdel) in Hrun.
      pose proof (metadata_ready_keeps_addedTags B st st0 Hmeta) as Hsame.
      destruct res as [status|err]; destruct (_addedTags (this st0)) as [added|] eqn:Hadded;
        try discriminate.
      inversion Hrun; subst b st'; clear Hrun.
      exists st0, status, w', added. simpl.
      repeat split; try reflexivity; try congruence.
      * intros added' Heq i Hi. inversion Heq; subst added'.
        apply filter_In in Hi. destruct Hi as [_ Hi].
        apply negb_true_iff in Hi. now apply loose_eq_str_false.
      * intro Habsent. f_equal. apply filter_keeps_all.
        intros i Hi. apply negb_true_iff. apply loose_eq_str_false. now apply Habsent.
    + rewrite (Remove_metadata_fails B st st0 tid eid e Hid Hmeta) in Hrun. discriminate.
Qed.

(** C10.  If the link removal throws, [Remove] throws a
    [TagManagerServiceError] that wraps the error, and the attached set is
    the one before the call. *)
Theorem Remove_transport_error :
  forall (st st0 : State W) (tid eid : string) (err : JsError) (w' : W),
    _entityId (this st) = Some eid ->
    metadata_ready B st st0 ->
    delete B (Remove_url (this st0) tid) (world st0) = (Throw err, w') ->
    exists st',
      Remove B (Some tid) st
      = (Throw (TagManagerServiceError (mkMessage "ErrTagRemovalKey" []) err), st')
      /\ _addedTags (this st') = _addedTags (this st).
Proof.
  intros st st0 tid eid err w' Hid Hmeta Hdel.
  rewrite (Remove_run B st st0 tid eid (Throw err) w' Hid Hmeta Hdel).
  eexists. split; [reflexivity|]. simpl.
  exact (metadata_ready_keeps_addedTags B st st0 Hmeta).
Qed.

End SearchAndRemove.

Section AddProperties.

Import TagManagerService.
Context {W : Type} (B : Backend W).

Lemma keeps_on_throw_of_keeps {A X : Type} (proj : TagManagerService.t -> X) (m : M W A) :
  keeps proj m -> keeps_on_throw proj m.
Proof. intros H st e st' Hrun. specialize (H st). now rewrite Hrun in H. Qed.

Lemma keeps_on_throw_bind {A C X : Type} (proj : TagManagerService.t -> X) (m : M W A)
    (k : A -> M W C) :
  keeps proj m -> (forall a, keeps_on_throw proj (k a)) -> keeps_on_throw proj (bind m k).
Proof.
  intros Hm Hk st e st' Hrun. unfold bind in Hrun. specialize (Hm st).
  destruct (m st) as [[a|e1] st1]; simpl in Hm.
  - rewrite <- Hm. exact (Hk a st1 e st' Hrun).
  - inversion Hrun; subst. exact Hm.
Qed.

Lemma keeps_on_throw_try_catch {A X : Type} (proj : TagManagerService.t -> X) (m : M W A)
    (h : JsError -> M W A) :
  keeps_on_throw proj m -> (forall e, keeps proj (h e)) ->
  keeps_on_throw proj (try_catch m h).
Proof.
  intros Hm Hh st e st' Hrun. unfold try_catch in Hrun.
  destruct (m st) as [[a|e1] st1] eqn:Hmst.
  - discriminate.
  - specialize (Hh e1 st1). rewrite Hrun in Hh. simpl in Hh.
    rewrite Hh. exact (Hm st e1 st1 Hmst).
Qed.

Lemma keeps_on_throw_assign {A X : Type} (proj : TagManagerService.t -> X)
    (f : TagManagerService.t -> TagManagerService.t) (a : A) :
  keeps_on_throw proj (bind (@modify_this W f) (fun _ => ret a)).
Proof. intros st e st' Hrun. discriminate. Qed.

(** Whenever [Add] throws, the attached set is the one before the call:
    the only assignment to it is the last step before the return. *)
Lemma Add_keeps_addedTags_on_throw (tagName : string) (tagId : option string) :
  keeps_on_throw _addedTags (Add B tagName tagId).
Proof.
  unfold Add. apply keeps_on_throw_try_catch; [| intro e; apply keeps_throw].
  apply keeps_on_throw_bind; [apply keeps_get_this | intro s0].
  apply keeps_on_throw_bind;
    [apply keeps_when; apply LoadEntityMetadata_keeps_addedTags | intros _].
  apply keeps_on_throw_bind; [apply keeps_get_this | intro s].
  apply keeps_on_throw_bind.
  { destruct tagId; frame; try apply GetByName_keeps; apply Create_keeps. }
  intros [tg|]; [| apply keeps_on_throw_of_keeps; apply keeps_throw].
  destruct (Js.truthy_value (Tag.id tg)); [| apply keeps_on_throw_of_keeps; apply keeps_throw].
  apply keeps_on_throw_bind; [apply keeps_get_this | intro s1].
  apply keeps_on_throw_bind; [apply Relate_keeps | intros []].
  - apply keeps_on_throw_bind; [apply keeps_get_this | intro s2].
    destruct (_addedTags s2); [apply keeps_on_throw_assign |].
    apply keeps_on_throw_of_keeps; apply keeps_throw.
  - apply keeps_on_throw_of_keeps; apply keeps_throw.
Qed.

Lemma GetByName_none (name : string) (st : State W) (w1 : W) :
  retrieve_eax_tag B (GetByName_query name) (world st) = (Return [], w1) ->
  GetByName B name st
  = (Return None,
     mkState (this st) w1
       (requests st ++ [retrieveMultipleRecords "eax_tag" (GetByName_query name)])
       (window_name st)).
Proof.
  intro H. unfold GetByName.
  apply try_catch_Return. rewrite bind_get_this.
  rewrite (bind_Return _ _ _ _ _ (call_answer _ _ st _ _ H)). reflexivity.
Qed.

Lemma GetLanguageByLCID_none (lcid : string) (st : State W) (w1 : W) :
  retrieve_eax_language B (GetLanguageByLCID_query lcid) (world st) = (Return [], w1) ->
  GetLanguageByLCID B lcid st
  = (Return None,
     mkState (this st) w1
       (requests st ++ [retrieveMultipleRecords "eax_language" (GetLanguageByLCID_query lcid)])
       (window_name st)).
Proof.
  intro H. unfold GetLanguageByLCID.
  apply try_catch_Return.
  rewrite (bind_Return _ _ _ _ _ (call_answer _ _ st _ _ H)). reflexivity.
Qed.

Lemma truthy_nonempty (s : string) : s <> "" -> Js.truthy_value (Js.str s) = true.
Proof. intro H. simpl. apply negb_true_iff. now apply String.eqb_neq. Qed.

Lemma Create_language_not_found (tagName newId : string) (st : State W) (w2 w3 : W) :
  create_eax_tag B [("eax_name", tagName); ("eax_scope", _scope (this st))] (world st)
    = (Return (Js.str newId), w2) ->
  newId <> "" ->
  retrieve_eax_language B (GetLanguageByLCID_query (_languageLCID (this st))) w2
    = (Return [], w3) ->
  Create B tagName st
  = (Throw (CustomError (mkMessage "ErrTagCreatedLCIDNotFoundKey"
                           [("tagName", tagName); ("languageLCID", _languageLCID (this st))])),
     mkState (this st) w3
       (requests st
        ++ [createRecord "eax_tag" [("eax_name", tagName); ("eax_scope", _scope (this st))];
            retrieveMultipleRecords "eax_language"
              (GetLanguageByLCID_query (_languageLCID (this st)))])
       (window_name st)).
Proof.
  intros Hcreate Hid Hlang. unfold Create. rewrite bind_get_this. cbv zeta.
  erewrite bind_Return by (apply call_answer; exact Hcreate).
  rewrite (truthy_nonempty newId Hid). change (negb true) with false. cbv iota.
  erewrite bind_Return by (apply GetLanguageByLCID_none; exact Hlang).
  simpl. now rewrite <- app_assoc.
Qed.

(** [Add] with a name and no identifier, when the lookup it performs (for
    the name of the page) finds no row: the tag record is created, then the
    language of the viewer locale is looked up; when that lookup finds no
    record, [Add] throws and the attached set is the one before the call. *)
Theorem Add_language_not_found :
  forall (st st0 : State W) (tagName newId : string) (w1 w2 w3 : W),
    metadata_ready B st st0 ->
    retrieve_eax_tag B (GetByName_query (window_name st0)) (world st0) = (Return [], w1) ->
    create_eax_tag B [("eax_name", tagName); ("eax_scope", _scope (this st0))] w1
      = (Return (Js.str newId), w2) ->
    newId <> "" ->
    retrieve_eax_language B (GetLanguageByLCID_query (_languageLCID (this st0))) w2
      = (Return [], w3) ->
    exists st',
      Add B tagName None st
      = (Throw (TagManagerServiceError (mkMessage "ErrTagCreationRelationshipKey" [])
                  (CustomError (mkMessage "ErrTagCreatedLCIDNotFoundKey"
                                  [("tagName", tagName);
                                   ("languageLCID", _languageLCID (this st0))]))), st')
      /\ requests st'
         = (requests st0
            ++ [retrieveMultipleRecords "eax_tag" (GetByName_query (window_name st0));
                createRecord "eax_tag"
                  [("eax_name", tagName); ("eax_scope", _scope (this st0))];
                retrieveMultipleRecords "eax_language"
                  (GetLanguageByLCID_query (_languageLCID (this st0)))])%list
      /\ _addedTags (this st') = _addedTags (this st).
Proof.
  intros st st0 tagName newId w1 w2 w3 Hmeta Hfind Hcreate Hid Hlang.
  assert (Hrun : exists st', Add B tagName None st
      = (Throw (TagManagerServiceError (mkMessage "ErrTagCreationRelationshipKey" [])
                  (CustomError (mkMessage "ErrTagCreatedLCIDNotFoundKey"
                                  [("tagName", tagName);
                                   ("languageLCID", _languageLCID (this st0))]))), st')
      /\ requests st'
         = (requests st0
            ++ [retrieveMultipleRecords "eax_tag" (GetByName_query (window_name st0));
                createRecord "eax_tag"
                  [("eax_name", tagName); ("eax_scope", _scope (this st0))];
                retrieveMultipleRecords "eax_language"
                  (GetLanguageByLCID_query (_languageLCID (this st0)))])%list).
  { unfold metadata_ready in Hmeta. unfold Add, try_catch.
    rewrite bind_get_this. rewrite (bind_Return _ _ _ _ _ Hmeta). rewrite bind_get_this.
    erewrite bind_Throw.
    2:{ rewrite bind_get_window_name.
        rewrite (bind_Return _ _ _ _ _ (GetByName_none _ st0 w1 Hfind)). simpl.
        erewrite (Create_language_not_found tagName newId);
          [| simpl; exact Hcreate | exact Hid | simpl; exact Hlang].
        simpl. rewrite <- app_assoc. reflexivity. }
    eexists. split; reflexivity. }
  destruct Hrun as [st' [Hrun Hreq]]. exists st'. repeat split; try assumption.
  exact (Add_keeps_addedTags_on_throw tagName None st _ st' Hrun).
Qed.

End AddProperties.

(** ** Concrete runs *)

(** The case of C1 through [SearchByName] itself. *)
Lemma SearchByName_sales_ventas :
  fst (TagManagerService.SearchByName Examples.sales_ventas_backend "a"
         Examples.spanish_state)
  = Return [Tag.new "Ventas" "es-mx" None "es-mx" true (Js.str "A") None].
Proof. reflexivity. Qed.

Lemma SearchByName_keeps_loaded_addedTags_witness :
  TagManagerService._addedTags
    (TagManagerService.this
       (snd (TagManagerService.SearchByName Examples.one_attached_backend "sa"
               Examples.loaded_state)))
  = Some [Examples.attachedA; Examples.candB].
Proof.
  apply (SearchByName_keeps_loaded_addedTags Examples.one_attached_backend "sa"
           Examples.loaded_state [Examples.attachedA; Examples.candB]).
  reflexivity.
Defined.

(** C7 (as stated) fails when the attached set has not been loaded:
    [SearchByName] then loads it and stores it. *)
Lemma SearchByName_loads_addedTags :
  TagManagerService._addedTags (TagManagerService.this Examples.unloaded_state) = None
  /\ fst (TagManagerService.SearchByName Examples.one_attached_backend "sa"
            Examples.unloaded_state) = Return []
  /\ TagManagerService._addedTags
       (TagManagerService.this
          (snd (TagManagerService.SearchByName Examples.one_attached_backend "sa"
                  Examples.unloaded_state)))
     = Some [Examples.attachedA]
  /\ TagManagerService._addedTags
       (TagManagerService.this
          (snd (TagManagerService.SearchByName Examples.one_attached_backend "sa"
                  Examples.unloaded_state)))
     <> TagManagerService._addedTags (TagManagerService.this Examples.unloaded_state).
Proof.
  repeat split; try reflexivity. vm_compute. discriminate.
Qed.

Lemma Remove_issues_removal_and_filters_witness :
  TagManagerService._entityId (TagManagerService.this Examples.loaded_state) = Some "rec-1"
  /\ TagManagerService._addedTags
       (TagManagerService.this
          (snd (TagManagerService.Remove Examples.quiet_backend (Some "A")
                  Examples.loaded_state)))
     = Some [Examples.candB].
Proof.
  split; [reflexivity|].
  destruct (Remove_issues_removal_and_filters Examples.quiet_backend Examples.loaded_state
              "A" "rec-1" eq_refl) as [_ Hreturns].
  destruct (Hreturns true
              (snd (TagManagerService.Remove Examples.quiet_backend (Some "A")
                      Examples.loaded_state)) eq_refl)
    as [st0 [status [w' [added [_ [_ [_ [Hbefore [Hafter _]]]]]]]]].
  rewrite Hafter. vm_compute in Hbefore. inversion Hbefore. reflexivity.
Defined.

(** C8 (as stated) fails when the record has no identifier: the tag [A] is
    not in the attached set, and [Remove] returns [false] without issuing
    any request. *)
Lemma Remove_without_record :
  TagManagerService._entityId (TagManagerService.this Examples.no_record_state) = None
  /\ TagManagerService._addedTags (TagManagerService.this Examples.no_record_state)
     = Some []
  /\ TagManagerService.requests Examples.no_record_state = []
  /\ fst (TagManagerService.Remove Examples.quiet_backend (Some "A")
            Examples.no_record_state) = Return false
  /\ TagManagerService.requests
       (snd (TagManagerService.Remove Examples.quiet_backend (Some "A")
               Examples.no_record_state)) = [].
Proof.
  repeat split; reflexivity.
Qed.

Lemma Remove_transport_error_witness :
  exists st',
    TagManagerService.Remove Examples.failing_delete_backend (Some "A") Examples.loaded_state
    = (Throw (TagManagerServiceError (mkMessage "ErrTagRemovalKey" [])
                (Error "Network Error")), st')
    /\ TagManagerService._addedTags (TagManagerService.this st')
       = TagManagerService._addedTags (TagManagerService.this Examples.loaded_state).
Proof.
  apply (Remove_transport_error Examples.failing_delete_backend Examples.loaded_state
           (snd (TagManagerService.LoadEntityMetadata Examples.failing_delete_backend
                   Examples.loaded_state))
           "A" "rec-1" (Error "Network Error") tt).
  - reflexivity.
  - reflexivity.
  - reflexivity.
Defined.

Lemma Add_language_not_found_witness :
  exists st',
    TagManagerService.Add Examples.quiet_backend "sales" None Examples.loaded_state
    = (Throw (TagManagerServiceError (mkMessage "ErrTagCreationRelationshipKey" [])
                (CustomError (mkMessage "ErrTagCreatedLCIDNotFoundKey"
                                [("tagName", "sales"); ("languageLCID", "en-us")]))), st')
    /\ TagManagerService._addedTags (TagManagerService.this st')
       = Some [Examples.attachedA; Examples.candB].
Proof.
  destruct (Add_language_not_found Examples.quiet_backend Examples.loaded_state
              (snd (TagManagerService.LoadEntityMetadata Examples.quiet_backend
                      Examples.loaded_state))
              "sales" "new-tag" tt tt tt)
    as [st' [Hrun [_ Hkept]]].
  - reflexivity.
  - reflexivity.
  - reflexivity.
  - discriminate.
  - reflexivity.
  - exists st'. split; [exact Hrun | exact Hkept].
Defined.

(** C5: what [Add] does on the tag table.  The lookup query has one
    condition, on the name; and the name it carries is the name of the
    page, not the tag name. *)
Lemma GetByName_query_filter (name : string) :
  QueryBuilder.filter (TagManagerService.GetByName_query name)
  = [QueryBuilder.cond
       (QueryBuilder.filterExpression "eax_name" "eq" (Js.toLowerCase name))].
Proof. reflexivity. Qed.

(** C5, first run.  The table holds [sales] with the scope and the locale
    of the service, and the page has no name.  [Add("sales")] looks up the
    empty name, finds nothing, and creates a second [sales]. *)
Theorem Add_creates_duplicate :
  TagManagerService.world Examples.store_state
    = [TagEntity.mk "sales" "en-us" "skills" (Js.str "T1")]
  /\ TagManagerService._scope (TagManagerService.this Examples.store_state) = "skills"
  /\ TagManagerService._languageLCID (TagManagerService.this Examples.store_state) = "en-us"
  /\ In (retrieveMultipleRecords "eax_tag" (TagManagerService.GetByName_query ""))
        (TagManagerService.requests
           (snd (TagManagerService.Add Store.backend "sales" None Examples.store_state)))
  /\ In (createRecord "eax_tag" [("eax_name", "sales"); ("eax_scope", "skills")])
        (TagManagerService.requests
           (snd (TagManagerService.Add Store.backend "sales" None Examples.store_state)))
  /\ TagManagerService.world
       (snd (TagManagerService.Add Store.backend "sales" None Examples.store_state))
     = [TagEntity.mk "sales" "en-us" "skills" (Js.str "T1");
        TagEntity.mk "sales" "" "skills" (Js.str "new-tag")].
Proof.
  repeat split; try reflexivity; vm_compute; tauto.
Qed.

(** C6.  No tag is named [marketing]: the table holds [sales] alone, and
    the page is named [sales].  [Add("marketing")] looks up [sales], takes
    that tag, creates no record and never asks for the language: its
    requests are the metadata read, the lookup and the link.  It returns
    the tag [sales] and appends it to the attached set.  This is the defect
    of C5: the lookup carries the name of the page, not the tag name. *)
Theorem Add_new_name_creates_nothing :
  TagManagerService.world Examples.store_state_other_scope
    = [TagEntity.mk "sales" "pt-br" "colors" (Js.str "T9")]
  /\ TagManagerService.window_name Examples.store_state_other_scope = "sales"
  /\ TagManagerService.requests Examples.store_state_other_scope = []
  /\ fst (TagManagerService.Add Store.backend "marketing" None
            Examples.store_state_other_scope)
     = Return (Some (Tag.mk (Js.str "T9") "sales" "sales" (Some "colors") "pt-br" None 3
                       true None))
  /\ TagManagerService.requests
       (snd (TagManagerService.Add Store.backend "marketing" None
               Examples.store_state_other_scope))
     = [axios_get
          "/api/data/v9.1/EntityDefinitions(LogicalName='account')?$select=EntitySetName";
        retrieveMultipleRecords "eax_tag" (TagManagerService.GetByName_query "sales");
        axios_post "/api/data/v9.1/accounts(rec-1)/eax_account_tag/$ref"
          "https://org.crm.dynamics.com/api/data/v9.1/eax_tags(T9)"]
  /\ TagManagerService.world
       (snd (TagManagerService.Add Store.backend "marketing" None
               Examples.store_state_other_scope))
     = [TagEntity.mk "sales" "pt-br" "colors" (Js.str "T9")]
  /\ TagManagerService._addedTags
       (TagManagerService.this
          (snd (TagManagerService.Add Store.backend "marketing" None
                  Examples.store_state_other_scope)))
     = Some [Tag.mk (Js.str "T9") "sales" "sales" (Some "colors") "pt-br" None 3 true None].
Proof.
  repeat split; reflexivity.
Qed.

(** C5, second run.  The table holds [sales] in another scope and another
    locale, and the page is named [sales].  [Add("sales")] takes that tag
    and creates nothing. *)
Lemma Add_takes_tag_of_other_scope :
  TagManagerService.world Examples.store_state_other_scope
    = [TagEntity.mk "sales" "pt-br" "colors" (Js.str "T9")]
  /\ TagManagerService._scope (TagManagerService.this Examples.store_state_other_scope)
     = "skills"
  /\ TagManagerService._languageLCID
       (TagManagerService.this Examples.store_state_other_scope) = "en-us"
  /\ fst (TagManagerService.Add Store.backend "sales" None Examples.store_state_other_scope)
     = Return (Some (Tag.mk (Js.str "T9") "sales" "sales" (Some "colors") "pt-br" None 3
                       true None))
  /\ TagManagerService.world
       (snd (TagManagerService.Add Store.backend "sales" None
               Examples.store_state_other_scope))
     = [TagEntity.mk "sales" "pt-br" "colors" (Js.str "T9")].
Proof.
  repeat split; reflexivity.
Qed.

(** * Further properties *)

(** ** Tags *)

Lemma CalculatePreference_fields (tg : Tag.t) (userlcid : string) :
  let r := Tag.CalculatePreference tg userlcid in
  Tag.id r = Tag.id tg /\ Tag.value r = Tag.value tg /\ Tag.name r = Tag.name tg
  /\ Tag.scope r = Tag.scope tg /\ Tag.lcid r = Tag.lcid tg
  /\ Tag.recordId r = Tag.recordId tg /\ Tag.persisted r = Tag.persisted tg
  /\ Tag.originallcid r = Tag.originallcid tg.
Proof.
  unfold Tag.CalculatePreference.
  destruct (String.eqb _ _); [| destruct (String.eqb _ _)]; simpl; repeat split.
Qed.

Lemma new_well_formed (name lcid : string) (scope : option string) (userlcid : string)
    (persisted : bool) (tagId : Js.value) (recordId : option string) :
  well_formed_tag (Tag.new name lcid scope userlcid persisted tagId recordId).
Proof.
  unfold well_formed_tag, Tag.new.
  destruct (CalculatePreference_fields
              (Tag.mk tagId name name scope (Js.toLowerCase lcid) recordId 0 persisted None)
              userlcid) as (_ & Hv & Hn & _ & Hl & _).
  rewrite Hv, Hn, Hl. simpl. repeat split.
  - apply toLowerCase_idempotent.
  - apply CalculatePreference_range.
Qed.

Lemma Translate_well_formed (tg : Tag.t) (name lcid userlcid : string) :
  well_formed_tag (Tag.Translate tg name lcid userlcid).
Proof.
  unfold well_formed_tag, Tag.Translate.
  match goal with
  | |- context [Tag.CalculatePreference ?t _] =>
      destruct (CalculatePreference_fields t userlcid) as (_ & Hv & Hn & _ & Hl & _)
  end.
  rewrite Hv, Hn, Hl. simpl. repeat split.
  - apply toLowerCase_idempotent.
  - apply CalculatePreference_range.
Qed.

Lemma Translate_keeps_identity (tg : Tag.t) (name lcid userlcid : string) :
  let r := Tag.Translate tg name lcid userlcid in
  Tag.id r = Tag.id tg /\ Tag.scope r = Tag.scope tg
  /\ Tag.recordId r = Tag.recordId tg /\ Tag.persisted r = Tag.persisted tg.
Proof.
  unfold Tag.Translate.
  match goal with
  | |- context [Tag.CalculatePreference ?t _] =>
      destruct (CalculatePreference_fields t userlcid)
        as (Hi & _ & _ & Hs & _ & Hr & Hp & _)
  end.
  simpl. rewrite Hi, Hs, Hr, Hp. simpl. repeat split.
Qed.

(** X1.  A tag made by the constructor and then translated any number of
    times has [value] equal to [name], a lower-case locale and a rank among
    1, 2, 3; and it still has the identifier, the scope, the record and
    the persisted flag it was made with. *)
Theorem tag_invariant :
  forall (name lcid : string) (scope : option string) (userlcid : string)
         (persisted : bool) (tagId : Js.value) (recordId : option string)
         (calls : list (string * string * string)),
    let tg := translate_all (Tag.new name lcid scope userlcid persisted tagId recordId)
                calls in
    well_formed_tag tg
    /\ Tag.id tg = tagId /\ Tag.scope tg = scope
    /\ Tag.recordId tg = recordId /\ Tag.persisted tg = persisted.
Proof.
  intros name lcid scope userlcid persisted tagId recordId calls.
  unfold translate_all.
  set (t0 := Tag.new name lcid scope userlcid persisted tagId recordId).
  assert (H0 : well_formed_tag t0 /\ Tag.id t0 = tagId /\ Tag.scope t0 = scope
               /\ Tag.recordId t0 = recordId /\ Tag.persisted t0 = persisted).
  { split; [apply new_well_formed|]. unfold t0, Tag.new.
    match goal with
    | |- context [Tag.CalculatePreference ?t _] =>
        destruct (CalculatePreference_fields t userlcid)
          as (Hi & _ & _ & Hs & _ & Hr & Hp & _)
    end.
    rewrite Hi, Hs, Hr, Hp. simpl. repeat split. }
  clearbody t0. revert t0 H0.
  induction calls as [|[[n l] u] r IH]; intros t0 H0; simpl; [exact H0|].
  apply IH. destruct H0 as (_ & Hi & Hs & Hr & Hp).
  destruct (Translate_keeps_identity t0 n l u) as (Hi' & Hs' & Hr' & Hp').
  split; [apply Translate_well_formed|].
  rewrite Hi', Hs', Hr', Hp'. repeat split; assumption.
Qed.

(** ** The sort by preference *)

Lemma SetPreferenceOrder_le (a b : Tag.t) :
  (TagManagerService.SetPreferenceOrder a b <=? 0) = (Tag.preference a <=? Tag.preference b).
Proof.
  unfold TagManagerService.SetPreferenceOrder.
  destruct (Z.gtb_spec (Tag.preference a) (Tag.preference b));
    [| destruct (Z.ltb_spec (Tag.preference a) (Tag.preference b))];
    simpl; symmetry; try (apply Z.leb_le; lia); apply Z.leb_gt; lia.
Qed.

Lemma sort_insert_Permutation {A : Type} (cmp : A -> A -> Z) (x : A) (l : list A) :
  Permutation (x :: l) (Js.sort_insert cmp x l).
Proof.
  induction l as [|y r IH]; simpl; [reflexivity|].
  destruct (cmp x y <=? 0); [reflexivity|].
  rewrite perm_swap. now constructor.
Qed.

Lemma sort_Permutation {A : Type} (cmp : A -> A -> Z) (l : list A) :
  Permutation l (Js.sort cmp l).
Proof.
  unfold Js.sort. induction l as [|x r IH]; simpl; [reflexivity|].
  rewrite <- sort_insert_Permutation. now constructor.
Qed.

Lemma sort_insert_ranked (x : Tag.t) (l : list Tag.t) :
  StronglySorted ranked_before l ->
  StronglySorted ranked_before (Js.sort_insert TagManagerService.SetPreferenceOrder x l).
Proof.
  induction l as [|y r IH]; simpl; intro Hs.
  - constructor; constructor.
  - rewrite SetPreferenceOrder_le.
    apply StronglySorted_inv in Hs. destruct Hs as [Hr Hy].
    destruct (Z.leb_spec (Tag.preference x) (Tag.preference y)) as [Hle | Hgt].
    + constructor; [constructor; assumption|].
      constructor; [exact Hle|].
      eapply Forall_impl; [| exact Hy]. unfold ranked_before. intros; lia.
    + constructor; [apply IH; exact Hr|].
      apply Forall_forall. intros z Hz.
      apply (Permutation_in _ (Permutation_sym (sort_insert_Permutation _ x r))) in Hz.
      destruct Hz as [<- | Hz].
      * unfold ranked_before. lia.
      * rewrite Forall_forall in Hy. now apply Hy.
Qed.

Lemma sort_ranked (l : list Tag.t) :
  StronglySorted ranked_before (Js.sort TagManagerService.SetPreferenceOrder l).
Proof.
  unfold Js.sort. induction l as [|x r IH]; simpl; [constructor|].
  now apply sort_insert_ranked.
Qed.

(** X2.  The sort of the candidates by [SetPreferenceOrder] rearranges them
    without losing or adding any, and leaves them in ascending order of
    rank. *)
Theorem sort_by_preference :
  forall l : list Tag.t,
    Permutation l (Js.sort TagManagerService.SetPreferenceOrder l)
    /\ StronglySorted ranked_before (Js.sort TagManagerService.SetPreferenceOrder l).
Proof.
  intro l. split; [apply sort_Permutation | apply sort_ranked].
Qed.

Lemma sort_insert_filter (p : Z) (x : Tag.t) (l : list Tag.t) :
  List.filter (fun t => Tag.preference t =? p)
    (Js.sort_insert TagManagerService.SetPreferenceOrder x l)
  = List.filter (fun t => Tag.preference t =? p) (x :: l).
Proof.
  induction l as [|y r IH]; [reflexivity|].
  simpl Js.sort_insert. rewrite SetPreferenceOrder_le.
  destruct (Z.leb_spec (Tag.preference x) (Tag.preference y)) as [Hle | Hgt];
    [reflexivity|].
  simpl in *. rewrite IH.
  destruct (Z.eqb_spec (Tag.preference x) p), (Z.eqb_spec (Tag.preference y) p);
    try reflexivity.
  lia.
Qed.

(** X3.  The sort is stable: the candidates of one rank come out in the
    order they had in the concatenation, fresh tags before translations. *)
Theorem sort_by_preference_stable :
  forall (p : Z) (l : list Tag.t),
    List.filter (fun t => Tag.preference t =? p)
      (Js.sort TagManagerService.SetPreferenceOrder l)
    = List.filter (fun t => Tag.preference t =? p) l.
Proof.
  intros p l. unfold Js.sort. induction l as [|x r IH]; [reflexivity|].
  simpl fold_right. rewrite sort_insert_filter. simpl. now rewrite IH.
Qed.

Lemma sort_of_ranked (l : list Tag.t) :
  StronglySorted ranked_before l ->
  Js.sort TagManagerService.SetPreferenceOrder l = l.
Proof.
  unfold Js.sort. induction l as [|x r IH]; intro Hs; [reflexivity|].
  apply StronglySorted_inv in Hs. destruct Hs as [Hr Hx].
  simpl. rewrite (IH Hr). destruct r as [|y r']; [reflexivity|].
  simpl. rewrite SetPreferenceOrder_le.
  apply Forall_inv in Hx. unfold ranked_before in Hx.
  apply Z.leb_le in Hx. now rewrite Hx.
Qed.

(** ** The resolution step, further *)

Lemma StronglySorted_app_drop {A : Type} (R : A -> A -> Prop) (l1 : list A) (x : A)
    (l2 : list A) :
  StronglySorted R (l1 ++ x :: l2) -> StronglySorted R (l1 ++ l2).
Proof.
  induction l1 as [|y r IH]; simpl; intro Hs.
  - now apply StronglySorted_inv in Hs.
  - apply StronglySorted_inv in Hs. destruct Hs as [Hr Hy]. constructor.
    + now apply IH.
    + rewrite Forall_app in *. destruct Hy as [H1 H2]. split; [exact H1|].
      now apply Forall_inv_tail in H2.
Qed.

Lemma StronglySorted_app_before {A : Type} (R : A -> A -> Prop) (l1 l2 : list A) :
  StronglySorted R (l1 ++ l2) -> forall a b, In a l1 -> In b l2 -> R a b.
Proof.
  induction l1 as [|y r IH]; simpl; intros Hs a b Ha Hb; [contradiction|].
  apply StronglySorted_inv in Hs. destruct Hs as [Hr Hy].
  destruct Ha as [<- | Ha].
  - rewrite Forall_forall in Hy. apply Hy. apply in_or_app. now right.
  - now apply (IH Hr).
Qed.

Lemma StronglySorted_app_left {A : Type} (R : A -> A -> Prop) (l1 l2 : list A) :
  StronglySorted R (l1 ++ l2) -> StronglySorted R l1.
Proof.
  induction l1 as [|y r IH]; simpl; intro Hs; [constructor|].
  apply StronglySorted_inv in Hs. destruct Hs as [Hr Hy]. constructor.
  - now apply IH.
  - rewrite Forall_app in Hy. tauto.
Qed.

(** The accumulator after a run of the callback over [l], seen from the
    list [acc ++ l] it was cut from. *)
Lemma reduce_callback_ranked (added : list Tag.t) (l : list Tag.t) :
  forall acc,
    StronglySorted ranked_before (acc ++ l) ->
    StronglySorted ranked_before
      (Js.reduce (TagManagerService.allTags_callback added) acc l).
Proof.
  unfold Js.reduce. induction l as [|x r IH]; simpl; intros acc Hs.
  - now rewrite app_nil_r in Hs.
  - apply IH.
    destruct (allTags_callback_cases added acc x) as [-> | [-> _]].
    + now apply StronglySorted_app_drop in Hs.
    + now rewrite <- app_assoc.
Qed.

Lemma reduce_callback_grows (added : list Tag.t) (l : list Tag.t) :
  forall acc e, In e acc ->
    In e (Js.reduce (TagManagerService.allTags_callback added) acc l).
Proof.
  unfold Js.reduce. induction l as [|x r IH]; simpl; intros acc e He; [exact He|].
  apply IH. destruct (allTags_callback_cases added acc x) as [-> | [-> _]];
    [exact He | apply in_or_app; now left].
Qed.

Lemma reduce_callback_from (added : list Tag.t) (l : list Tag.t) :
  forall acc e,
    In e (Js.reduce (TagManagerService.allTags_callback added) acc l) ->
    In e acc \/ In e l.
Proof.
  unfold Js.reduce. induction l as [|x r IH]; simpl; intros acc e He; [now left|].
  apply IH in He. destruct He as [He | He]; [| right; now right].
  destruct (allTags_callback_cases added acc x) as [Heq | [Heq _]]; rewrite Heq in He.
  - now left.
  - apply in_app_iff in He. destruct He as [He | [<- | []]]; [now left | right; now left].
Qed.

(** X4.  The result of the resolution step holds candidates only, and it is
    in ascending order of rank: what the dropdown shows is ranked. *)
Theorem allTags_ranked :
  forall tags translatedTags added : list Tag.t,
    (forall e, In e (TagManagerService.allTags tags translatedTags added) ->
       In e (tags ++ translatedTags))
    /\ StronglySorted ranked_before (TagManagerService.allTags tags translatedTags added).
Proof.
  intros tags translatedTags added. unfold TagManagerService.allTags. split.
  - intros e He. apply reduce_callback_from in He. destruct He as [[] | He].
    exact (Permutation_in _ (Permutation_sym (sort_Permutation _ _)) He).
  - apply reduce_callback_ranked. simpl. apply sort_ranked.
Qed.

Lemma callback_covers (added acc : list Tag.t) (x : Tag.t) :
  is_attached added x
  \/ exists e, In e (TagManagerService.allTags_callback added acc x) /\ stands_for e x
               /\ (In e acc \/ e = x).
Proof.
  unfold TagManagerService.allTags_callback, is_attached, stands_for.
  destruct (Js.find _ added) as [a|] eqn:Ha.
  - left. apply find_some_exists in Ha. destruct Ha as [Hin Heq].
    apply strict_eq_true in Heq. now exists a.
  - right. destruct (Js.find _ acc) as [e|] eqn:Hc.
    + apply find_some_exists in Hc. destruct Hc as [Hin Heq]. simpl in Heq.
      exists e. repeat split; [exact Hin | | now left].
      apply orb_true_iff in Heq. destruct Heq as [H | H].
      * left. now apply String.eqb_eq.
      * right. now apply strict_eq_true.
    + exists x. repeat split; [apply in_or_app; right; now left | now left | now right].
Qed.

Lemma reduce_callback_covers (added : list Tag.t) (l : list Tag.t) :
  forall acc c,
    StronglySorted ranked_before (acc ++ l) ->
    In c l ->
    is_attached added c
    \/ exists e, In e (Js.reduce (TagManagerService.allTags_callback added) acc l)
                 /\ stands_for e c /\ ranked_before e c.
Proof.
  induction l as [|x r IH]; intros acc c Hs Hc; [contradiction|].
  assert (Hnext : StronglySorted ranked_before
                    (TagManagerService.allTags_callback added acc x ++ r)).
  { destruct (allTags_callback_cases added acc x) as [-> | [-> _]].
    - now apply StronglySorted_app_drop in Hs.
    - now rewrite <- app_assoc. }
  destruct Hc as [<- | Hc].
  - destruct (callback_covers added acc x) as [Hatt | [e [He [Hst Hwhere]]]];
      [now left|].
    right. exists e. split; [| split; [exact Hst|]].
    + unfold Js.reduce. simpl. now apply reduce_callback_grows.
    + destruct Hwhere as [Hin | ->]; [| unfold ranked_before; lia].
      apply (StronglySorted_app_before _ _ _ Hs e x Hin). now left.
  - unfold Js.reduce. simpl. exact (IH _ c Hnext Hc).
Qed.

(** X5.  No candidate is lost without a reason: a candidate that is absent
    from the result either has the identifier of an attached tag, or is
    stood for in the result by an entry with its name or its identifier
    whose rank is at least as good. *)
Theorem allTags_covers_candidates :
  forall (tags translatedTags added : list Tag.t) (c : Tag.t),
    In c (tags ++ translatedTags) ->
    is_attached added c
    \/ exists e, In e (TagManagerService.allTags tags translatedTags added)
                 /\ stands_for e c /\ ranked_before e c.
Proof.
  intros tags translatedTags added c Hc. unfold TagManagerService.allTags.
  apply reduce_callback_covers.
  - simpl. apply sort_ranked.
  - exact (Permutation_in _ (sort_Permutation _ _) Hc).
Qed.

Lemma allTags_covers_candidates_witness :
  is_attached [Examples.attachedA] Examples.candB
  \/ exists e,
       In e (TagManagerService.allTags [Examples.candA; Examples.candB] []
               [Examples.attachedA])
       /\ stands_for e Examples.candB /\ ranked_before e Examples.candB.
Proof.
  apply (allTags_covers_candidates [Examples.candA; Examples.candB] []
           [Examples.attachedA] Examples.candB).
  simpl. right. left. reflexivity.
Defined.

Lemma NoDup_map_app_head {A K : Type} (f : A -> K) (acc : list A) (x : A) (r : list A) :
  NoDup (map f (acc ++ x :: r)) -> forall e, In e acc -> f e <> f x.
Proof.
  rewrite map_app. simpl. intros Hnd e He Heq.
  apply NoDup_remove_2 in Hnd. apply Hnd. apply in_or_app. left.
  rewrite <- Heq. now apply in_map.
Qed.

Lemma reduce_callback_keeps_all (added : list Tag.t) (l : list Tag.t) :
  forall acc,
    (forall c, In c l -> ~ is_attached added c) ->
    NoDup (map Tag.id (acc ++ l)) ->
    NoDup (map Tag.name (acc ++ l)) ->
    Js.reduce (TagManagerService.allTags_callback added) acc l = (acc ++ l)%list.
Proof.
  unfold Js.reduce. induction l as [|x r IH]; simpl; intros acc Hfree Hid Hname.
  - now rewrite app_nil_r.
  - assert (Hstep : TagManagerService.allTags_callback added acc x = (acc ++ [x])%list).
    { unfold TagManagerService.allTags_callback.
      rewrite find_all_false.
      - rewrite find_all_false; [reflexivity|].
        intros e He. apply orb_false_iff. split.
        + apply String.eqb_neq. exact (NoDup_map_app_head Tag.name acc x r Hname e He).
        + apply strict_eq_false. exact (NoDup_map_app_head Tag.id acc x r Hid e He).
      - intros a Ha. apply strict_eq_false. intro Heq.
        apply (Hfree x (or_introl eq_refl)). now exists a. }
    rewrite Hstep, IH.
    + now rewrite <- app_assoc.
    + intros c Hc. apply Hfree. now right.
    + now rewrite <- app_assoc.
    + now rewrite <- app_assoc.
Qed.

(** X6.  When no candidate has the identifier of an attached tag and the
    candidates have pairwise different identifiers and pairwise different
    names, the resolution step drops nothing: its result is the sorted
    candidates. *)
Theorem allTags_without_conflict :
  forall tags translatedTags added : list Tag.t,
    (forall c, In c (tags ++ translatedTags) -> ~ is_attached added c) ->
    NoDup (map Tag.id (tags ++ translatedTags)) ->
    NoDup (map Tag.name (tags ++ translatedTags)) ->
    TagManagerService.allTags tags translatedTags added
    = Js.sort TagManagerService.SetPreferenceOrder (tags ++ translatedTags).
Proof.
  intros tags translatedTags added Hfree Hid Hname. unfold TagManagerService.allTags.
  pose proof (sort_Permutation TagManagerService.SetPreferenceOrder (tags ++ translatedTags))
    as Hperm.
  rewrite reduce_callback_keeps_all; [reflexivity | | |].
  - intros c Hc. apply Hfree. exact (Permutation_in _ (Permutation_sym Hperm) Hc).
  - simpl. exact (Permutation_NoDup (Permutation_map Tag.id Hperm) Hid).
  - simpl. exact (Permutation_NoDup (Permutation_map Tag.name Hperm) Hname).
Qed.

Lemma allTags_without_conflict_witness :
  TagManagerService.allTags [Examples.candA; Examples.candB] [] []
  = Js.sort TagManagerService.SetPreferenceOrder ([Examples.candA; Examples.candB] ++ []).
Proof.
  apply (allTags_without_conflict [Examples.candA; Examples.candB] [] []).
  - intros c _ [a [[] _]].
  - vm_compute. repeat constructor; simpl; intuition discriminate.
  - vm_compute. repeat constructor; simpl; intuition discriminate.
Defined.

Lemma reduce_callback_distinct (added : list Tag.t) (l : list Tag.t) :
  forall acc,
    NoDup (map Tag.id acc) -> NoDup (map Tag.name acc) ->
    NoDup (map Tag.id (Js.reduce (TagManagerService.allTags_callback added) acc l))
    /\ NoDup (map Tag.name (Js.reduce (TagManagerService.allTags_callback added) acc l)).
Proof.
  intros acc Hid Hname.
  apply (reduce_invariant
           (fun a => NoDup (map Tag.id a) /\ NoDup (map Tag.name a))); [now split|].
  intros b x [Hb1 Hb2].
  destruct (allTags_callback_cases added b x) as [-> | [-> [_ Hacc]]]; [now split|].
  rewrite !in_map_snoc. split; apply NoDup_snoc; try assumption;
    intro Hin; apply in_map_iff in Hin; destruct Hin as [e [He Hine]];
    now destruct (Hacc e Hine).
Qed.

Lemma reduce_callback_free (added : list Tag.t) (l : list Tag.t) :
  forall e,
    In e (Js.reduce (TagManagerService.allTags_callback added) [] l) ->
    ~ is_attached added e.
Proof.
  apply (reduce_invariant (fun a => forall e, In e a -> ~ is_attached added e)).
  - intros e [].
  - intros b x IH e He.
    destruct (allTags_callback_cases added b x) as [Heq | [Heq [Hadd _]]];
      rewrite Heq in He; [now apply IH|].
    apply in_app_iff in He. destruct He as [He | [<- | []]]; [now apply IH|].
    intros [a [Ha Hid]]. exact (Hadd a Ha Hid).
Qed.

(** ** The winner is decided by rank *)

Lemma reduce_callback_keeps_best (added : list Tag.t) (c : Tag.t) (l : list Tag.t) :
  forall acc,
    StronglySorted ranked_before (acc ++ l) ->
    In c l ->
    ~ is_attached added c ->
    (forall d, In d (acc ++ l) -> stands_for d c ->
       d = c \/ Tag.preference c < Tag.preference d) ->
    In c (Js.reduce (TagManagerService.allTags_callback added) acc l).
Proof.
  induction l as [|x r IH]; intros acc Hs Hc Hfree Hbest; [contradiction|].
  assert (Hnext : StronglySorted ranked_before
                    (TagManagerService.allTags_callback added acc x ++ r)).
  { destruct (allTags_callback_cases added acc x) as [-> | [-> _]].
    - now apply StronglySorted_app_drop in Hs.
    - now rewrite <- app_assoc. }
  unfold Js.reduce. simpl. destruct Hc as [-> | Hc].
  - apply reduce_callback_grows.
    destruct (callback_covers added acc c) as [Hatt | [e [He [Hst Hwhere]]]];
      [contradiction|].
    destruct Hwhere as [Hin | ->]; [| exact He].
    destruct (Hbest e (in_or_app _ _ _ (or_introl Hin)) Hst) as [-> | Hlt]; [exact He|].
    pose proof (StronglySorted_app_before _ _ _ Hs e c Hin (or_introl eq_refl)) as Hle.
    unfold ranked_before in Hle. lia.
  - apply (IH _ Hnext Hc Hfree).
    intros d Hd Hst. apply Hbest; [| exact Hst].
    apply in_app_iff in Hd. apply in_app_iff. destruct Hd as [Hd | Hd].
    + destruct (allTags_callback_cases added acc x) as [Heq | [Heq _]]; rewrite Heq in Hd.
      * now left.
      * apply in_app_iff in Hd. destruct Hd as [Hd | [<- | []]]; [now left|].
        right. now left.
    + right. now right.
Qed.

Lemma NoDup_map_same {A K : Type} (f : A -> K) (l : list A) (a b : A) :
  NoDup (map f l) -> In a l -> In b l -> f a = f b -> a = b.
Proof.
  induction l as [|x r IH]; simpl; intros Hnd Ha Hb Heq; [contradiction|].
  inversion Hnd as [|y r' Hx Hr]; subst.
  destruct Ha as [<- | Ha], Hb as [<- | Hb]; try reflexivity.
  - exfalso. apply Hx. rewrite Heq. now apply in_map.
  - exfalso. apply Hx. rewrite <- Heq. now apply in_map.
  - now apply IH.
Qed.

(** C1.  Fresh tag [{id A, Sales, en-us}], translated tag
    [{parent A, Ventas, es-mx}], viewer locale [es-mx], nothing attached:
    [Sales] comes first in the concatenation, the sort by rank puts
    [Ventas] (rank 1) before [Sales] (rank 3), and the resolution step
    returns exactly one entry, the one named [Ventas], with identifier [A].
    The reason is the sort, whatever the order of the concatenation: in
    every run of the resolution step, a candidate that is not attached and
    whose rank is strictly better than the rank of every other candidate
    with its name or its identifier is in the result, and it is the only
    entry of the result with its name or its identifier. *)
Theorem allTags_sales_ventas :
  (let s := TagManagerService.new "skills" "es-mx" "account" (Some "rec-1")
              "https://org.crm.dynamics.com" "" "" "/api/data/v9.1" in
   let sales := TagManagerService.tag_of_entity s
                  (TagEntity.mk "Sales" "en-us" "skills" (Js.str "A")) in
   let ventas := Tag.new "Ventas" "es-mx" None (TagManagerService._languageLCID s)
                   true (Js.str "A") None in
   TagManagerService.tag_of_translation s
     (TranslationEntity.mk "Ventas" "es-mx" None (Some (Js.str "A"))) = Return ventas
   /\ ([sales] ++ [ventas] = [sales; ventas])%list
   /\ Tag.preference sales = 3
   /\ Tag.preference ventas = 1
   /\ Js.sort TagManagerService.SetPreferenceOrder [sales; ventas] = [ventas; sales]
   /\ TagManagerService.allTags [sales] [ventas] [] = [ventas]
   /\ TagManagerService.allTags [ventas] [sales] [] = [ventas]
   /\ Tag.id ventas = Js.str "A"
   /\ Tag.name ventas = "Ventas")
  /\ (forall (tags translatedTags added : list Tag.t) (c : Tag.t),
        In c (tags ++ translatedTags) ->
        ~ is_attached added c ->
        (forall d, In d (tags ++ translatedTags) -> stands_for d c ->
           d = c \/ Tag.preference c < Tag.preference d) ->
        In c (TagManagerService.allTags tags translatedTags added)
        /\ (forall e, In e (TagManagerService.allTags tags translatedTags added) ->
              stands_for e c -> e = c)).
Proof.
  split; [repeat split; reflexivity|].
  intros tags translatedTags added c Hc Hfree Hbest.
  pose proof (sort_Permutation TagManagerService.SetPreferenceOrder (tags ++ translatedTags))
    as Hperm.
  assert (Hin : In c (TagManagerService.allTags tags translatedTags added)).
  { unfold TagManagerService.allTags. apply reduce_callback_keeps_best.
    - simpl. apply sort_ranked.
    - exact (Permutation_in _ Hperm Hc).
    - exact Hfree.
    - simpl. intros d Hd. apply Hbest.
      exact (Permutation_in _ (Permutation_sym Hperm) Hd). }
  split; [exact Hin|].
  intros e He Hst.
  destruct (reduce_callback_distinct added
              (Js.sort TagManagerService.SetPreferenceOrder (tags ++ translatedTags)) []
              (NoDup_nil _) (NoDup_nil _)) as [Hid Hname].
  fold (TagManagerService.allTags tags translatedTags added) in Hid, Hname.
  destruct Hst as [Hn | Hi].
  - exact (NoDup_map_same Tag.name _ e c Hname He Hin Hn).
  - exact (NoDup_map_same Tag.id _ e c Hid He Hin Hi).
Qed.

Lemma allTags_sales_ventas_witness :
  In MoreExamples.ventas (TagManagerService.allTags [MoreExamples.sales] [MoreExamples.ventas] [])
  /\ In MoreExamples.ventas
       (TagManagerService.allTags [MoreExamples.ventas] [MoreExamples.sales] []).
Proof.
  destruct allTags_sales_ventas as [_ Hbest]. split.
  - apply (Hbest [MoreExamples.sales] [MoreExamples.ventas] [] MoreExamples.ventas).
    + simpl. right. left. reflexivity.
    + intros [a [[] _]].
    + intros d [<- | [<- | []]] _; [right; vm_compute; reflexivity | left; reflexivity].
  - apply (Hbest [MoreExamples.ventas] [MoreExamples.sales] [] MoreExamples.ventas).
    + simpl. left. reflexivity.
    + intros [a [[] _]].
    + intros d [<- | [<- | []]] _; [left; reflexivity | right; vm_compute; reflexivity].
Defined.

(** X7.  Resolving a result again, against the same attached tags, changes
    nothing. *)
Theorem allTags_idempotent :
  forall tags translatedTags added : list Tag.t,
    TagManagerService.allTags (TagManagerService.allTags tags translatedTags added) [] added
    = TagManagerService.allTags tags translatedTags added.
Proof.
  intros tags translatedTags added.
  set (R := TagManagerService.allTags tags translatedTags added).
  assert (Hsorted : StronglySorted ranked_before R)
    by (unfold R, TagManagerService.allTags; apply reduce_callback_ranked, sort_ranked).
  assert (Hfree : forall c, In c R -> ~ is_attached added c)
    by (unfold R, TagManagerService.allTags; apply reduce_callback_free).
  destruct (reduce_callback_distinct added
              (Js.sort TagManagerService.SetPreferenceOrder (tags ++ translatedTags)) []
              (NoDup_nil _) (NoDup_nil _)) as [Hid Hname].
  fold (TagManagerService.allTags tags translatedTags added) in Hid, Hname. fold R in Hid, Hname.
  unfold TagManagerService.allTags at 1. rewrite app_nil_r, (sort_of_ranked R Hsorted).
  now rewrite reduce_callback_keeps_all.
Qed.

(** ** The service: the requests a method issues *)

Section Issues.

Import TagManagerService.
Context {W : Type} (B : Backend W).

Lemma issues_nothing {A : Type} (P : Request -> Prop) (m : M W A) :
  (forall st, requests (snd (m st)) = requests st) -> issues P m.
Proof.
  intros H st. exists []. split; [| constructor]. now rewrite H, app_nil_r.
Qed.

Lemma issues_ret {A : Type} (P : Request -> Prop) (a : A) : issues P (@ret W A a).
Proof. now apply issues_nothing. Qed.

Lemma issues_throw {A : Type} (P : Request -> Prop) (e : JsError) :
  issues P (@throw W A e).
Proof. now apply issues_nothing. Qed.

Lemma issues_lift {A : Type} (P : Request -> Prop) (o : Outcome A) :
  issues P (@lift W A o).
Proof. now apply issues_nothing. Qed.

Lemma issues_get_this (P : Request -> Prop) : issues P (@get_this W).
Proof. now apply issues_nothing. Qed.

Lemma issues_get_window_name (P : Request -> Prop) : issues P (@get_window_name W).
Proof. now apply issues_nothing. Qed.

Lemma issues_modify_this (P : Request -> Prop) (f : TagManagerService.t -> TagManagerService.t) :
  issues P (@modify_this W f).
Proof. now apply issues_nothing. Qed.

Lemma issues_call {A : Type} (P : Request -> Prop) (r : Request)
    (op : W -> Outcome A * W) :
  P r -> issues P (call r op).
Proof.
  intros Hr st. exists [r]. unfold call. destruct (op (world st)). simpl.
  split; [reflexivity | now constructor].
Qed.

Lemma issues_bind {A C : Type} (P : Request -> Prop) (m : M W A) (k : A -> M W C) :
  issues P m -> (forall a, issues P (k a)) -> issues P (bind m k).
Proof.
  intros Hm Hk st. unfold bind. destruct (Hm st) as [rs [Hrs HP]].
  destruct (m st) as [[a|e] st1]; simpl in *.
  - destruct (Hk a st1) as [rs' [Hrs' HP']]. exists (rs ++ rs')%list.
    rewrite Hrs', Hrs, app_assoc. split; [reflexivity | now apply Forall_app].
  - now exists rs.
Qed.

Lemma issues_try_catch {A : Type} (P : Request -> Prop) (m : M W A)
    (h : JsError -> M W A) :
  issues P m -> (forall e, issues P (h e)) -> issues P (try_catch m h).
Proof.
  intros Hm Hh st. unfold try_catch. destruct (Hm st) as [rs [Hrs HP]].
  destruct (m st) as [[a|e] st1]; simpl in *.
  - now exists rs.
  - destruct (Hh e st1) as [rs' [Hrs' HP']]. exists (rs ++ rs')%list.
    rewrite Hrs', Hrs, app_assoc. split; [reflexivity | now apply Forall_app].
Qed.

Lemma issues_when (P : Request -> Prop) (c : bool) (m : M W unit) :
  issues P m -> issues P (when c m).
Proof. intro H. destruct c; [exact H | apply issues_ret]. Qed.

Lemma issues_weaken {A : Type} (P Q : Request -> Prop) (m : M W A) :
  (forall r, P r -> Q r) -> issues P m -> issues Q m.
Proof.
  intros HPQ Hm st. destruct (Hm st) as [rs [Hrs HP]]. exists rs.
  split; [exact Hrs | eapply Forall_impl; eassumption].
Qed.

End Issues.

Create HintDb issues.

#[global] Hint Resolve issues_ret issues_throw issues_lift issues_get_this
  issues_get_window_name issues_modify_this issues_when : issues.

Ltac issues_step :=
  match goal with
  | |- issues _ (TagManagerService.bind _ _) => apply issues_bind; [| intro]
  | |- issues _ (TagManagerService.try_catch _ _) => apply issues_try_catch; [| intro]
  | |- issues _ (TagManagerService.when _ _) => apply issues_when
  | |- issues _ (TagManagerService.call _ _) => apply issues_call; exact I
  | |- issues _ (match ?x with _ => _ end) => destruct x
  | |- issues _ (if ?x then _ else _) => destruct x
  | |- issues _ _ => solve [auto with issues]
  end.

Ltac issues_all := repeat issues_step.

Section ServiceIssues.

Import TagManagerService.
Context {W : Type} (B : Backend W).

Lemma LoadEntityMetadata_reads : issues is_read (LoadEntityMetadata B).
Proof. unfold LoadEntityMetadata. issues_all. Qed.

Lemma GetAllByRecordId_reads : issues is_read (GetAllByRecordId B).
Proof. unfold GetAllByRecordId. issues_all. apply LoadEntityMetadata_reads. Qed.

Lemma SearchTranslationsByName_reads (name : string) :
  issues is_read (SearchTranslationsByName B name).
Proof. unfold SearchTranslationsByName. issues_all. Qed.

Lemma GetByName_reads (name : string) : issues is_read (GetByName B name).
Proof. unfold GetByName. issues_all. Qed.

Lemma GetLanguageByLCID_reads (lcid : string) : issues is_read (GetLanguageByLCID B lcid).
Proof. unfold GetLanguageByLCID. issues_all. Qed.

(** X8.  Loading and searching only read: whatever the backend answers,
    [GetAllByRecordId], [SearchByName] and [GetByName] keep the requests
    issued before and add only queries and metadata reads, never a create,
    a link or a link removal. *)
Theorem search_and_load_only_read :
  forall name : string,
    issues is_read (GetAllByRecordId B)
    /\ issues is_read (SearchByName B name)
    /\ issues is_read (GetByName B name).
Proof.
  intro name. split; [apply GetAllByRecordId_reads|].
  split; [| apply GetByName_reads].
  unfold SearchByName. issues_all;
    first [apply GetAllByRecordId_reads | apply SearchTranslationsByName_reads].
Qed.

Lemma Relate_never_deletes (a b c d e : string) :
  issues is_not_delete (Relate B a b c d e).
Proof. unfold Relate. issues_all. Qed.

Lemma reads_are_not_deletes (r : Request) : is_read r -> is_not_delete r.
Proof. destruct r; simpl; tauto. Qed.

(** The requests of [LoadEntityMetadata]: the entity set name, and the
    relationships when that was answered and no relationship name is
    configured. *)
Lemma LoadEntityMetadata_requests (st : State W) :
  requests (snd (LoadEntityMetadata B st))
  = (requests st ++ [axios_get (EntitySetName_url (this st))])%list
  \/ requests (snd (LoadEntityMetadata B st))
     = (requests st ++ [axios_get (EntitySetName_url (this st));
                        axios_get (ManyToManyRelationships_url (this st))])%list.
Proof.
  unfold LoadEntityMetadata. rewrite bind_get_this.
  destruct (get_EntitySetName B (EntitySetName_url (this st)) (world st))
    as [[[esn|]|e] w1] eqn:Hesn.
  - erewrite bind_Return by (apply call_answer; exact Hesn).
    erewrite bind_Return by reflexivity.
    destruct (_manyToManyRelationshipName (this st)); [now left|].
    right.
    destruct (get_ManyToManyRelationships B (ManyToManyRelationships_url (this st)) w1)
      as [[rels|e] w2] eqn:Hrel.
    + erewrite bind_Return by (apply call_answer; exact Hrel).
      destruct rels as [[|r0 rest]|]; try (simpl; now rewrite <- app_assoc).
      destruct (Js.truthy (SchemaName r0) && Js.truthy (IntersectEntityName r0))%bool;
        simpl; now rewrite <- app_assoc.
    + erewrite bind_Throw by (apply call_answer; exact Hrel).
      simpl. now rewrite <- app_assoc.
  - erewrite bind_Return by (apply call_answer; exact Hesn).
    erewrite bind_Return by reflexivity. now left.
  - erewrite bind_Throw by (apply call_answer; exact Hesn). now left.
Qed.

Lemma Create_never_deletes (tagName : string) : issues is_not_delete (Create B tagName).
Proof.
  unfold Create. issues_all;
    first [ apply Relate_never_deletes
          | apply (issues_weaken is_read); [exact reads_are_not_deletes |];
            apply GetLanguageByLCID_reads ].
Qed.

(** X9.  [Add] never removes a link, not even to undo a creation that it
    could not finish.  [Remove] issues the metadata reads of
    [LoadEntityMetadata], if any, and then at most one more request: the
    removal of the link between the record and the tag, at the URL built
    from the service as the metadata step leaves it.  It never deletes a
    tag record, and never creates or links anything. *)
Theorem Add_never_deletes_Remove_never_creates :
  forall (tagName : string) (tagId : option string) (tid : string) (st : State W),
    issues is_not_delete (Add B tagName tagId)
    /\ (let st0 := snd (when (Js.is_null (_entitySetName (this st)))
                          (LoadEntityMetadata B) st) in
        let issued := requests (snd (Remove B (Some tid) st)) in
        exists meta,
          (meta = []
           \/ meta = [axios_get (EntitySetName_url (this st))]
           \/ meta = [axios_get (EntitySetName_url (this st));
                      axios_get (ManyToManyRelationships_url (this st))])
          /\ (issued = (requests st ++ meta)%list
              \/ issued = (requests st ++ meta
                           ++ [axios_delete (Remove_url (this st0) tid)])%list)).
Proof.
  intros tagName tagId tid st. split.
  - unfold Add. issues_all;
      first [ apply Relate_never_deletes
            | apply Create_never_deletes
            | apply (issues_weaken is_read); [exact reads_are_not_deletes |];
              first [apply LoadEntityMetadata_reads | apply GetByName_reads] ].
  - cbv zeta.
    destruct (_entityId (this st)) as [eid|] eqn:Hid.
    2:{ exists []. split; [now left|]. left.
        rewrite (Remove_no_record_id B st (Some tid) Hid). simpl. now rewrite app_nil_r. }
    assert (Hmeta : exists meta,
               (meta = []
                \/ meta = [axios_get (EntitySetName_url (this st))]
                \/ meta = [axios_get (EntitySetName_url (this st));
                           axios_get (ManyToManyRelationships_url (this st))])
               /\ requests (snd (when (Js.is_null (_entitySetName (this st)))
                                   (LoadEntityMetadata B) st))
                  = (requests st ++ meta)%list).
    { destruct (Js.is_null (_entitySetName (this st))); simpl.
      - destruct (LoadEntityMetadata_requests st) as [H | H]; eexists; split;
          [right; left; reflexivity | exact H | right; right; reflexivity | exact H].
      - exists []. split; [now left | now rewrite app_nil_r]. }
    destruct Hmeta as (meta & Hshape & Hmeta). exists meta. split; [exact Hshape|].
    destruct (when (Js.is_null (_entitySetName (this st))) (LoadEntityMetadata B) st)
      as [[[]|e] st0] eqn:Hstep; simpl in Hmeta |- *.
    + right.
      destruct (delete B (Remove_url (this st0) tid) (world st0)) as [res w'] eqn:Hdel.
      rewrite (Remove_run B st st0 tid eid res w' Hid Hstep Hdel).
      rewrite app_assoc, <- Hmeta.
      destruct res; destruct (_addedTags (this st0)); reflexivity.
    + left. rewrite (Remove_metadata_fails B st st0 tid eid e Hid Hstep). exact Hmeta.
Qed.

End ServiceIssues.

(** ** The service: what a method throws and what it returns *)

Section Outcomes.

Import TagManagerService.
Context {W : Type} (B : Backend W).

Lemma bind_Return_inv {A C : Type} (m : M W A) (k : A -> M W C) (st st' : State W) (c : C) :
  bind m k st = (Return c, st') ->
  exists a st1, m st = (Return a, st1) /\ k a st1 = (Return c, st').
Proof.
  unfold bind. destruct (m st) as [[a|e] st1]; intro H; [| discriminate].
  now exists a, st1.
Qed.

Lemma try_catch_rethrow_Return {A : Type} (m : M W A) (wrap : JsError -> JsError)
    (st st' : State W) (a : A) :
  try_catch m (fun err => throw (wrap err)) st = (Return a, st') ->
  m st = (Return a, st').
Proof.
  unfold try_catch. destruct (m st) as [[a'|e] st1]; intro H; [exact H | discriminate].
Qed.

Lemma keeps_run {A X : Type} (proj : TagManagerService.t -> X) (m : M W A)
    (st st' : State W) (o : Outcome A) :
  keeps proj m -> m st = (o, st') -> proj (this st') = proj (this st).
Proof. intros Hk Hrun. specialize (Hk st). now rewrite Hrun in Hk. Qed.


Lemma tag_step_keeps_addedTags (tagName : string) (tagId : option string)
    (s : TagManagerService.t) :
  keeps _addedTags
    (match tagId with
     | Some tid =>
         ret (Some (Tag.new tagName (_languageLCID s) (Some (_scope s))
                      (_languageLCID s) false (Js.str tid) (_entityId s)))
     | None =>
         name <- get_window_name ;;
         found <- GetByName B name ;;
         if negb (has_id found) then Create B tagName else ret found
     end).
Proof.
  destruct tagId; frame; first [apply GetByName_keeps | apply Create_keeps].
Qed.

Lemma Add_Return_inv (tagName : string) (tagId : option string) (st st' : State W)
    (r : option Tag.t) :
  Add B tagName tagId st = (Return r, st') ->
  exists tg added,
    r = Some tg
    /\ Tag.persisted tg = true
    /\ Js.truthy_value (Tag.id tg) = true
    /\ _addedTags (this st) = Some added
    /\ _addedTags (this st') = Some (added ++ [tg])%list
    /\ (forall tid, tagId = Some tid -> Tag.id tg = Js.str tid /\ Tag.name tg = tagName).
Proof.
  intro H. unfold Add in H.
  apply try_catch_rethrow_Return in H.
  rewrite bind_get_this in H.
  apply bind_Return_inv in H. destruct H as ([] & st0 & Hmeta & H).
  rewrite bind_get_this in H.
  apply bind_Return_inv in H. destruct H as (tag & st1 & Htag & H).
  destruct tag as [tg|]; [| discriminate].
  destruct (Js.truthy_value (Tag.id tg)) eqn:Hid; [| discriminate].
  rewrite bind_get_this in H.
  apply bind_Return_inv in H. destruct H as (rel & st2 & Hrel & H).
  destruct rel; [| discriminate].
  rewrite bind_get_this in H.
  destruct (_addedTags (this st2)) as [added|] eqn:Hadded; [| discriminate].
  inversion H; subst r st'; clear H.
  assert (Hsame : _addedTags (this st2) = _addedTags (this st)).
  { rewrite (keeps_run _addedTags _ st1 st2 _ (Relate_keeps B _addedTags _ _ _ _ _) Hrel).
    rewrite (keeps_run _addedTags _ st0 st1 _
               (tag_step_keeps_addedTags tagName tagId (this st0)) Htag).
    exact (keeps_run _addedTags _ st st0 _
             (keeps_when _addedTags _ _ (LoadEntityMetadata_keeps_addedTags B)) Hmeta). }
  exists (Tag.set_persisted true tg), added. simpl.
  split; [reflexivity|]. split; [reflexivity|]. split; [exact Hid|].
  split; [congruence|]. split; [congruence|].
  intros tid ->. inversion Htag; subst tg.
  unfold Tag.new.
  match goal with
  | |- context [Tag.CalculatePreference ?t ?u] =>
      destruct (CalculatePreference_fields t u) as (Hi & _ & Hn & _)
  end.
  split; [exact Hi | exact Hn].
Qed.

(** X11.  When [Add] returns, it returns a tag: persisted, with a non-empty
    identifier, and appended at the end of the attached set, which is
    otherwise as before.  When an identifier was given, the tag has that
    identifier and the given name. *)
Theorem Add_returns :
  forall (tagName : string) (tagId : option string) (st st' : State W)
         (r : option Tag.t),
    Add B tagName tagId st = (Return r, st') ->
    exists tg added,
      r = Some tg
      /\ Tag.persisted tg = true
      /\ Js.truthy_value (Tag.id tg) = true
      /\ _addedTags (this st) = Some added
      /\ _addedTags (this st') = Some (added ++ [tg])%list
      /\ (forall tid, tagId = Some tid ->
            Tag.id tg = Js.str tid /\ Tag.name tg = tagName).
Proof.
  intros tagName tagId st st' r. apply Add_Return_inv.
Qed.

End Outcomes.

Section Writes.

Import TagManagerService.
Context {W : Type} (B : Backend W).

Lemma new_id (name lcid : string) (scope : option string) (userlcid : string)
    (persisted : bool) (tagId : Js.value) (recordId : option string) :
  Tag.id (Tag.new name lcid scope userlcid persisted tagId recordId) = tagId.
Proof.
  unfold Tag.new.
  match goal with
  | |- context [Tag.CalculatePreference ?t ?u] =>
      destruct (CalculatePreference_fields t u) as (Hi & _)
  end.
  exact Hi.
Qed.

(** X12.  [Add] with the identifier of a tag picked from the list: no lookup
    and no creation, the only request after the metadata step is the link.
    When the link answers 204 and the attached set is loaded, the tag is
    appended and returned; when it answers 204 and the attached set was
    never loaded, the link stays and [Add] throws; when it answers anything
    else, [Add] throws and the attached set is as before. *)
Theorem Add_selected_tag :
  forall (st st0 : State W) (tagName tid : string) (status : Z) (w' : W),
    tid <> "" ->
    metadata_ready B st st0 ->
    let s := this st0 in
    let url := Relate_url s (Js.interpolate (_entityId s)) (Js.interpolate (_entitySetName s))
                 (Js.interpolate (_manyToManyRelationshipName s)) in
    let odata_id := Relate_odata_id s "eax_tags" tid in
    post B url odata_id (world st0) = (Return status, w') ->
    let tg := Tag.set_persisted true
                (Tag.new tagName (_languageLCID s) (Some (_scope s)) (_languageLCID s)
                   false (Js.str tid) (_entityId s)) in
    let issued := (requests st0 ++ [axios_post url odata_id])%list in
    Add B tagName (Some tid) st =
    if status =? 204 then
      match _addedTags s with
      | Some added =>
          (Return (Some tg),
           mkState (set_addedTags (Some (added ++ [tg])%list) s) w' issued (window_name st0))
      | None =>
          (Throw (TagManagerServiceError (mkMessage "ErrTagCreationRelationshipKey" [])
                    (TypeError "Cannot read property 'push' of undefined")),
           mkState s w' issued (window_name st0))
      end
    else
      (Throw (TagManagerServiceError (mkMessage "ErrTagCreationRelationshipKey" [])
                (CustomError (mkMessage "ErrTagRelationshipKey" [("tagName", tagName)]))),
       mkState s w' issued (window_name st0)).
Proof.
  intros st st0 tagName tid status w' Htid Hmeta s url odata_id Hpost tg issued.
  subst s url odata_id tg issued.
  unfold metadata_ready in Hmeta. unfold Add, try_catch.
  rewrite bind_get_this. rewrite (bind_Return _ _ _ _ _ Hmeta). rewrite bind_get_this.
  erewrite bind_Return by reflexivity.
  cbv beta iota. rewrite !new_id, (truthy_nonempty tid Htid). cbv beta iota.
  rewrite bind_get_this. unfold Relate.
  erewrite bind_Return
    by (rewrite bind_get_this;
        erewrite bind_Return by (apply call_answer; exact Hpost); reflexivity).
  destruct (status =? 204); [| reflexivity].
  rewrite bind_get_this. simpl. destruct (_addedTags (this st0)); reflexivity.
Qed.

(** X13.  [Add] with the empty string as identifier takes it for an
    identifier, so it looks nothing up and creates nothing; it then finds
    the tag without identifier and throws, having issued no request after
    the metadata step. *)
Theorem Add_empty_identifier :
  forall (st st0 : State W) (tagName : string),
    metadata_ready B st st0 ->
    Add B tagName (Some "") st
    = (Throw (TagManagerServiceError (mkMessage "ErrTagCreationRelationshipKey" [])
                (CustomError (mkMessage "ErrTagCreationKey" [("tagName", tagName)]))),
       st0).
Proof.
  intros st st0 tagName Hmeta. unfold metadata_ready in Hmeta. unfold Add, try_catch.
  rewrite bind_get_this. rewrite (bind_Return _ _ _ _ _ Hmeta). rewrite bind_get_this.
  erewrite bind_Return by reflexivity.
  cbv beta iota. rewrite new_id. reflexivity.
Qed.

End Writes.

Section Metadata.

Import TagManagerService.
Context {W : Type} (B : Backend W).

(** X14.  When [LoadEntityMetadata] returns, the entity set name is the one
    the backend answered.  With a relationship name configured, nothing
    else changes and one request was issued.  Without, the relationship
    name and the intersect entity name are the [SchemaName] and the
    [IntersectEntityName] of the first relationship the backend answered,
    both non-empty, and two requests were issued.  The attached set is not
    touched. *)
Theorem LoadEntityMetadata_returns :
  forall (st st' : State W),
    LoadEntityMetadata B st = (Return tt, st') ->
    _addedTags (this st') = _addedTags (this st)
    /\ exists esn w1,
         get_EntitySetName B (EntitySetName_url (this st)) (world st)
           = (Return (Some esn), w1)
         /\ ((_manyToManyRelationshipName (this st) <> None
              /\ st' = mkState (set_entitySetName (Some esn) (this st)) w1
                         (requests st ++ [axios_get (EntitySetName_url (this st))])
                         (window_name st))
             \/ (_manyToManyRelationshipName (this st) = None
                 /\ exists r0 rest w2,
                      get_ManyToManyRelationships B
                        (ManyToManyRelationships_url (this st)) w1
                        = (Return (Some (r0 :: rest)), w2)
                      /\ Js.truthy (SchemaName r0) = true
                      /\ Js.truthy (IntersectEntityName r0) = true
                      /\ st' = mkState
                                 (set_relationship (SchemaName r0) (IntersectEntityName r0)
                                    (set_entitySetName (Some esn) (this st)))
                                 w2
                                 (requests st
                                  ++ [axios_get (EntitySetName_url (this st));
                                      axios_get (ManyToManyRelationships_url (this st))])
                                 (window_name st))).
Proof.
  intros st st' H.
  split; [exact (keeps_run _addedTags _ st st' _ (LoadEntityMetadata_keeps_addedTags B) H)|].
  unfold LoadEntityMetadata in H. rewrite bind_get_this in H.
  apply bind_Return_inv in H. destruct H as (esn & st1 & Hcall & H).
  apply bind_Return_inv in H. destruct H as ([] & st2 & Hset & H).
  unfold call in Hcall.
  destruct (get_EntitySetName B (EntitySetName_url (this st)) (world st)) as [res w1].
  inversion Hcall; subst res st1; clear Hcall.
  inversion Hset; subst st2; clear Hset. simpl in H.
  destruct esn as [esn|]; [| discriminate].
  exists esn, w1. split; [reflexivity|].
  destruct (_manyToManyRelationshipName (this st)) as [m2m|] eqn:Hm2m.
  - left. inversion H; subst st'. split; [discriminate | reflexivity].
  - right. split; [reflexivity|].
    apply bind_Return_inv in H. destruct H as (rels & st3 & Hcall & H).
    unfold call in Hcall. simpl in Hcall.
    destruct (get_ManyToManyRelationships B (ManyToManyRelationships_url (this st)) w1)
      as [res w2].
    inversion Hcall; subst res st3; clear Hcall.
    destruct rels as [[|r0 rest]|]; try discriminate.
    destruct (Js.truthy (SchemaName r0)) eqn:Hs; [| discriminate].
    destruct (Js.truthy (IntersectEntityName r0)) eqn:Hi; [| discriminate].
    simpl in H. inversion H; subst st'; clear H.
    exists r0, rest, w2.
    split; [reflexivity|]. split; [exact Hs|]. split; [exact Hi|].
    f_equal. rewrite <- app_assoc. reflexivity.
Qed.

(** X15.  When the entity set name is answered and the relationship request
    then fails, [LoadEntityMetadata] throws that error with the entity set
    name already stored and the relationship name still unset.  Since
    [Add] and [Remove] load the metadata only while the entity set name is
    unset, they do not load it again: a later [Remove] issues the link
    removal with [undefined] for the relationship name. *)
Theorem LoadEntityMetadata_half_loaded :
  forall (st : State W) (esn eid : string) (e : JsError) (w1 w2 : W),
    _entityId (this st) = Some eid ->
    _manyToManyRelationshipName (this st) = None ->
    get_EntitySetName B (EntitySetName_url (this st)) (world st) = (Return (Some esn), w1) ->
    get_ManyToManyRelationships B (ManyToManyRelationships_url (this st)) w1
      = (Throw e, w2) ->
    exists st',
      LoadEntityMetadata B st = (Throw e, st')
      /\ _entitySetName (this st') = Some esn
      /\ _manyToManyRelationshipName (this st') = None
      /\ metadata_ready B st' st'
      /\ forall tid,
           requests (snd (Remove B (Some tid) st'))
           = (requests st'
              ++ [axios_delete
                    (_webApiBasePath (this st) ++ "/" ++ esn ++ "(" ++ eid
                     ++ ")/undefined/$ref?$id=" ++ _webApiBasePath (this st)
                     ++ "/eax_tags(" ++ tid ++ ")")])%list.
Proof.
  intros st esn eid e w1 w2 Hid Hm2m Hesn Hrel.
  set (st' := mkState (set_entitySetName (Some esn) (this st)) w2
                ((requests st ++ [axios_get (EntitySetName_url (this st))])
                 ++ [axios_get (ManyToManyRelationships_url (this st))])
                (window_name st)).
  assert (Hid' : _entityId (this st') = Some eid) by exact Hid.
  assert (Hm2m' : _manyToManyRelationshipName (this st') = None) by exact Hm2m.
  assert (Hready : metadata_ready B st' st') by reflexivity.
  exists st'. repeat split; try assumption.
  - unfold LoadEntityMetadata. rewrite bind_get_this.
    erewrite bind_Return by (apply call_answer; exact Hesn).
    erewrite bind_Return by reflexivity.
    rewrite Hm2m.
    erewrite bind_Throw by (apply call_answer; exact Hrel).
    reflexivity.
  - intro tid.
    destruct (delete B (Remove_url (this st') tid) (world st')) as [res w3] eqn:Hdel.
    rewrite (Remove_run B st' st' tid eid res w3 Hid' Hready Hdel).
    assert (Hurl : Remove_url (this st') tid
                   = _webApiBasePath (this st) ++ "/" ++ esn ++ "(" ++ eid
                     ++ ")/undefined/$ref?$id=" ++ _webApiBasePath (this st)
                     ++ "/eax_tags(" ++ tid ++ ")").
    { unfold Remove_url. rewrite Hid', Hm2m'. reflexivity. }
    rewrite <- Hurl.
    destruct res; destruct (_addedTags (this st')); reflexivity.
Qed.

End Metadata.

Section Attached.

Import TagManagerService.
Context {W : Type} (B : Backend W).

Lemma map_throwing_Return {A C : Type} (f : A -> Outcome C) (l : list A) :
  forall l', map_throwing f l = Return l' -> Forall2 (fun x y => f x = Return y) l l'.
Proof.
  induction l as [|x r IH]; simpl; intros l' H.
  - inversion H. constructor.
  - destruct (f x) as [y|e] eqn:Hx; [| discriminate].
    destruct (map_throwing f r) as [ys|e]; [| discriminate].
    inversion H; subst l'. constructor; [exact Hx | now apply IH].
Qed.

(** X16.  The tag made from a row of the attached tags.  It has the
    identifier of the row, belongs to the record, is persisted and well
    formed.  It carries the name of the row when the row has no
    translation, or an empty one, or when the tag is already in the locale
    of the viewer; otherwise it carries the translated name and remembers
    the locale of the tag. *)
Theorem tag_of_attached_row :
  forall (s : TagManagerService.t) (e : AttachedEntity.t) (tg : Tag.t),
    tag_of_attached s e = Return tg ->
    Tag.id tg = AttachedEntity.tags_eax_tagid e
    /\ Tag.recordId tg = _entityId s
    /\ Tag.persisted tg = true
    /\ well_formed_tag tg
    /\ ((AttachedEntity.tag_translations_eax_name e = None
         \/ AttachedEntity.tag_translations_eax_name e = Some ""
         \/ Js.toLowerCase (AttachedEntity.tags_eax_languagelcid e) = _languageLCID s) ->
        Tag.name tg = AttachedEntity.tags_eax_name e /\ Tag.originallcid tg = None)
    /\ (forall n, AttachedEntity.tag_translations_eax_name e = Some n -> n <> "" ->
        Js.toLowerCase (AttachedEntity.tags_eax_languagelcid e) <> _languageLCID s ->
        Tag.name tg = n
        /\ Tag.originallcid tg = Some (Js.toLowerCase (AttachedEntity.tags_eax_languagelcid e))).
Proof.
  intros s e tg H. unfold tag_of_attached in H.
  set (t0 := Tag.new (AttachedEntity.tags_eax_name e) (AttachedEntity.tags_eax_languagelcid e)
               (Some (AttachedEntity.tags_eax_scope e)) (_languageLCID s) true
               (AttachedEntity.tags_eax_tagid e) (_entityId s)) in *.
  assert (H0 : Tag.id t0 = AttachedEntity.tags_eax_tagid e
               /\ Tag.recordId t0 = _entityId s /\ Tag.persisted t0 = true
               /\ Tag.name t0 = AttachedEntity.tags_eax_name e
               /\ Tag.lcid t0 = Js.toLowerCase (AttachedEntity.tags_eax_languagelcid e)
               /\ Tag.originallcid t0 = None).
  { unfold t0, Tag.new.
    match goal with
    | |- context [Tag.CalculatePreference ?t ?u] =>
        destruct (CalculatePreference_fields t u)
          as (Hi & _ & Hn & _ & Hl & Hr & Hp & Ho)
    end.
    rewrite Hi, Hn, Hl, Hr, Hp, Ho. simpl. repeat split. }
  destruct H0 as (Hi & Hr & Hp & Hn & Hl & Ho).
  assert (Hwf0 : well_formed_tag t0) by apply new_well_formed.
  rewrite Hl in H.
  assert (Hcases :
            (tg = t0
             /\ (AttachedEntity.tag_translations_eax_name e = None
                 \/ AttachedEntity.tag_translations_eax_name e = Some ""
                 \/ Js.toLowerCase (AttachedEntity.tags_eax_languagelcid e) = _languageLCID s))
            \/ (exists n l,
                  tg = Tag.Translate t0 n l (_languageLCID s)
                  /\ AttachedEntity.tag_translations_eax_name e = Some n /\ n <> ""
                  /\ Js.toLowerCase (AttachedEntity.tags_eax_languagelcid e)
                     <> _languageLCID s)).
  { destruct (AttachedEntity.tag_translations_eax_name e) as [n|].
    - destruct (String.eqb n "") eqn:Hn0; simpl in H.
      + apply String.eqb_eq in Hn0. subst n.
        left. inversion H. split; [reflexivity | tauto].
      + apply String.eqb_neq in Hn0.
        destruct (String.eqb (Js.toLowerCase (AttachedEntity.tags_eax_languagelcid e))
                    (_languageLCID s)) eqn:Hl0; simpl in H.
        * apply String.eqb_eq in Hl0.
          left. inversion H. split; [reflexivity | tauto].
        * apply String.eqb_neq in Hl0.
          destruct (AttachedEntity.tag_translations_eax_languagelcid e) as [l|];
            [| discriminate].
          right. exists n, l. inversion H. repeat split; assumption.
    - left. simpl in H. inversion H. split; [reflexivity | tauto]. }
  destruct Hcases as [[-> Hplain] | (n & l & -> & Hsome & Hne & Hneq)].
  - split; [exact Hi|]. split; [exact Hr|]. split; [exact Hp|]. split; [exact Hwf0|].
    split.
    + intros _. split; [exact Hn | exact Ho].
    + intros n Hsome Hne Hneq. exfalso.
      destruct Hplain as [Hc | [Hc | Hc]]; [congruence | | contradiction].
      rewrite Hsome in Hc. inversion Hc. contradiction.
  - destruct (Translate_keeps_identity t0 n l (_languageLCID s)) as (Hi' & _ & Hr' & Hp').
    assert (Hnew : Tag.name (Tag.Translate t0 n l (_languageLCID s)) = n
                   /\ Tag.originallcid (Tag.Translate t0 n l (_languageLCID s))
                      = Some (Tag.lcid t0)).
    { unfold Tag.Translate.
      match goal with
      | |- context [Tag.CalculatePreference ?t ?u] =>
          destruct (CalculatePreference_fields t u)
            as (_ & _ & Hn2 & _ & _ & _ & _ & Ho2)
      end.
      rewrite Hn2, Ho2. simpl. split; reflexivity. }
    destruct Hnew as [Hn2 Ho2]. rewrite Hl in Ho2.
    split; [congruence|]. split; [congruence|]. split; [congruence|].
    split; [apply Translate_well_formed|]. split.
    + intros [Hc | [Hc | Hc]]; exfalso; [congruence | | contradiction].
      rewrite Hsome in Hc. inversion Hc. contradiction.
    + intros n' Hn' _ _. rewrite Hsome in Hn'. inversion Hn'; subst n'.
      split; [exact Hn2 | exact Ho2].
Qed.

End Attached.

Section Load.

Import TagManagerService.
Context {W : Type} (B : Backend W).

Lemma tag_of_attached_basic (s : TagManagerService.t) (e : AttachedEntity.t) (tg : Tag.t) :
  tag_of_attached s e = Return tg ->
  Tag.id tg = AttachedEntity.tags_eax_tagid e
  /\ Tag.recordId tg = _entityId s /\ Tag.persisted tg = true.
Proof.
  unfold tag_of_attached.
  set (t0 := Tag.new _ _ _ _ _ _ _).
  assert (H0 : Tag.id t0 = AttachedEntity.tags_eax_tagid e
               /\ Tag.recordId t0 = _entityId s /\ Tag.persisted t0 = true).
  { unfold t0, Tag.new.
    match goal with
    | |- context [Tag.CalculatePreference ?t ?u] =>
        destruct (CalculatePreference_fields t u) as (Hi & _ & _ & _ & _ & Hr & Hp & _)
    end.
    rewrite Hi, Hr, Hp. simpl. repeat split. }
  destruct (_ && _)%bool; intro H.
  - destruct (AttachedEntity.tag_translations_eax_languagelcid e) as [l|]; [| discriminate].
    inversion H; subst tg.
    destruct (Translate_keeps_identity t0
                match AttachedEntity.tag_translations_eax_name e with
                | Some n => n
                | None => ""
                end l (_languageLCID s)) as (Hi' & _ & Hr' & Hp').
    rewrite Hi', Hr', Hp'. exact H0.
  - inversion H; subst tg. exact H0.
Qed.

Lemma tags_of_attached_rows (s : TagManagerService.t) (rows : list AttachedEntity.t)
    (tags : list Tag.t) :
  Forall2 (fun e tg => tag_of_attached s e = Return tg) rows tags ->
  map Tag.id tags = map AttachedEntity.tags_eax_tagid rows
  /\ Forall (fun tg => Tag.persisted tg = true /\ Tag.recordId tg = _entityId s) tags.
Proof.
  induction 1 as [|e tg rows' tags' He _ [IH1 IH2]]; simpl.
  - split; [reflexivity | constructor].
  - destruct (tag_of_attached_basic _ _ _ He) as (Hi & Hr & Hp).
    split; [now rewrite Hi, IH1 | constructor; [now split | exact IH2]].
Qed.

Lemma LoadEntityMetadata_keeps {X : Type} (proj : TagManagerService.t -> X) :
  (forall v s, proj (set_entitySetName v s) = proj s) ->
  (forall a b s, proj (set_relationship a b s) = proj s) ->
  keeps proj (LoadEntityMetadata B).
Proof.
  intros H1 H2. unfold LoadEntityMetadata.
  repeat match goal with
         | |- keeps _ (modify_this _) => apply keeps_modify_this; intro; auto
         | _ => frame_step
         end.
Qed.

(** X17.  When [GetAllByRecordId] returns, it has loaded the metadata if
    the intersect entity name was unset, then issued one fetch for the
    entity, the intersect entity, the record, the scope and the language of
    the service as they are after that step.  The list it returns is the
    image of the rows answered to that very request, one tag per row in
    the order of the rows and with their identifiers, each persisted and
    tied to the record; it is the attached set stored, and nothing else of
    the service changes after the metadata step.  When it throws, the
    attached set is the one before the call. *)
Theorem GetAllByRecordId_outcome :
  forall (st st' : State W),
    (forall l, GetAllByRecordId B st = (Return l, st') ->
       _addedTags (this st') = Some l
       /\ (exists st1 rows w',
             when (negb (Js.truthy (_intersectEntityName (this st))))
                  (LoadEntityMetadata B) st = (Return tt, st1)
             /\ retrieve_fetchXml B (_entityName (this st1))
                  ("?fetchXml=" ++
                   FetchXMLQueries.BuildFindTagsAndTranslationsXML
                     (_entityName (this st1))
                     (Js.interpolate (_intersectEntityName (this st1)))
                     (Js.interpolate (_entityId (this st1)))
                     (_scope (this st1)) (_languageLCID (this st1)))
                  (world st1)
                = (Return rows, w')
             /\ map_throwing (tag_of_attached (this st1)) rows = Return l
             /\ map Tag.id l = map AttachedEntity.tags_eax_tagid rows
             /\ st' = mkState (set_addedTags (Some l) (this st1)) w'
                        (requests st1
                         ++ [retrieveMultipleRecords_fetchXml (_entityName (this st1))
                               ("?fetchXml=" ++
                                FetchXMLQueries.BuildFindTagsAndTranslationsXML
                                  (_entityName (this st1))
                                  (Js.interpolate (_intersectEntityName (this st1)))
                                  (Js.interpolate (_entityId (this st1)))
                                  (_scope (this st1)) (_languageLCID (this st1)))])
                        (window_name st1))
       /\ Forall (fun tg => Tag.persisted tg = true
                            /\ Tag.recordId tg = _entityId (this st)) l)
    /\ (forall e, GetAllByRecordId B st = (Throw e, st') ->
          _addedTags (this st') = _addedTags (this st)).
Proof.
  intros st st'. split.
  - intros l H. unfold GetAllByRecordId in H.
    apply try_catch_rethrow_Return in H. rewrite bind_get_this in H.
    apply bind_Return_inv in H. destruct H as ([] & st1 & Hmeta & H).
    rewrite bind_get_this in H. cbv zeta in H.
    apply bind_Return_inv in H. destruct H as (rows & st2 & Hcall & H).
    apply bind_Return_inv in H. destruct H as (tags & st3 & Hmap & H).
    inversion Hmap; subst st3. clear Hmap. rename H1 into Hmap.
    inversion H; subst l st'; clear H.
    assert (Hid : _entityId (this st1) = _entityId (this st)).
    { exact (keeps_run _entityId _ st st1 _
               (keeps_when _entityId _ _ (LoadEntityMetadata_keeps_entityId B)) Hmeta). }
    unfold call in Hcall.
    match type of Hcall with
    | context [retrieve_fetchXml B ?n ?o ?w] =>
        destruct (retrieve_fetchXml B n o w) as [res w'] eqn:Hanswer
    end.
    inversion Hcall; subst res st2; clear Hcall. simpl in Hmap.
    pose proof Hmap as Hrows.
    apply map_throwing_Return in Hmap.
    destruct (tags_of_attached_rows _ _ _ Hmap) as [Hids Hall].
    split; [reflexivity|]. split.
    + exists st1, rows, w'.
      split; [exact Hmeta|]. split; [exact Hanswer|]. split; [exact Hrows|].
      split; [exact Hids | reflexivity].
    + rewrite Hid in Hall. exact Hall.
  - intros e H. revert H. generalize st e st'. clear st e st'.
    change (keeps_on_throw _addedTags (GetAllByRecordId B)).
    unfold GetAllByRecordId.
    apply keeps_on_throw_try_catch; [| intro e; apply keeps_throw].
    apply keeps_on_throw_bind; [apply keeps_get_this | intro s0].
    apply keeps_on_throw_bind;
      [apply keeps_when; apply LoadEntityMetadata_keeps_addedTags | intros _].
    apply keeps_on_throw_bind; [apply keeps_get_this | intro s].
    cbv zeta.
    apply keeps_on_throw_bind; [apply keeps_call | intro rows].
    apply keeps_on_throw_bind; [apply keeps_lift | intro tags].
    apply keeps_on_throw_assign.
Qed.

Lemma Add_keeps_entityId (tagName : string) (tagId : option string) :
  keeps _entityId (Add B tagName tagId).
Proof.
  unfold Add. frame;
    first [ apply LoadEntityMetadata_keeps_entityId | apply GetByName_keeps
          | apply Create_keeps | apply Relate_keeps ].
Qed.

Lemma Remove_Return_inv (st st' : State W) (tid eid : string) (b : bool) :
  _entityId (this st) = Some eid ->
  Remove B (Some tid) st = (Return b, st') ->
  exists added,
    _addedTags (this st) = Some added
    /\ _addedTags (this st')
       = Some (List.filter (fun i => negb (Js.loose_eq (Tag.id i) (Js.str tid))) added).
Proof.
  intros Hid Hrun.
  destruct (when (Js.is_null (_entitySetName (this st))) (LoadEntityMetadata B) st)
    as [[[]|e] st0] eqn:Hmeta.
  - destruct (delete B (Remove_url (this st0) tid) (world st0)) as [res w'] eqn:Hdel.
    rewrite (Remove_run B st st0 tid eid res w' Hid Hmeta Hdel) in Hrun.
    pose proof (metadata_ready_keeps_addedTags B st st0 Hmeta) as Hsame.
    destruct res as [status|err]; destruct (_addedTags (this st0)) as [added|];
      try discriminate.
    inversion Hrun; subst. exists added. split; [congruence | reflexivity].
  - rewrite (Remove_metadata_fails B st st0 tid eid e Hid Hmeta) in Hrun. discriminate.
Qed.

(** X18.  Attach, then detach.  When [Add] returns a tag whose identifier
    no attached tag had, and [Remove] of that identifier then returns, the
    attached set is again the one before the two calls. *)
Theorem Add_then_Remove :
  forall (st st1 st2 : State W) (tagName : string) (tagId : option string)
         (tg : Tag.t) (tid eid : string) (b : bool) (added : list Tag.t),
    _entityId (this st) = Some eid ->
    _addedTags (this st) = Some added ->
    (forall t, In t added -> Tag.id t <> Js.str tid) ->
    Add B tagName tagId st = (Return (Some tg), st1) ->
    Tag.id tg = Js.str tid ->
    Remove B (Some tid) st1 = (Return b, st2) ->
    _addedTags (this st2) = Some added.
Proof.
  intros st st1 st2 tagName tagId tg tid eid b added Hid Hadded Hfresh Hadd Htid Hrem.
  destruct (Add_Return_inv B tagName tagId st st1 _ Hadd)
    as (tg' & added' & Heq & _ & _ & Hbefore & Hafter & _).
  inversion Heq; subst tg'. rewrite Hadded in Hbefore. inversion Hbefore; subst added'.
  assert (Hid1 : _entityId (this st1) = Some eid).
  { rewrite <- Hid. exact (keeps_run _entityId _ st st1 _
                             (Add_keeps_entityId tagName tagId) Hadd). }
  destruct (Remove_Return_inv st1 st2 tid eid b Hid1 Hrem) as (added1 & H1 & H2).
  rewrite Hafter in H1. inversion H1; subst added1. rewrite H2. f_equal.
  rewrite filter_app. simpl. rewrite Htid.
  assert (Hself : Js.loose_eq (Js.str tid) (Js.str tid) = true)
    by (rewrite loose_eq_str; now apply strict_eq_true).
  rewrite Hself. simpl. rewrite app_nil_r. apply filter_keeps_all.
  intros t Ht. apply negb_true_iff. apply loose_eq_str_false. now apply Hfresh.
Qed.

End Load.

Section SearchResult.

Import TagManagerService.
Context {W : Type} (B : Backend W).

(** X19.  What [SearchByName] returns: a list in ascending order of rank,
    with pairwise different identifiers and pairwise different names, none
    of them the identifier of a tag of the attached set as the service
    holds it after the call. *)
Theorem SearchByName_returns :
  forall (name : string) (st st' : State W) (l : list Tag.t),
    SearchByName B name st = (Return l, st') ->
    exists added,
      _addedTags (this st') = Some added
      /\ StronglySorted ranked_before l
      /\ NoDup (map Tag.id l)
      /\ NoDup (map Tag.name l)
      /\ (forall e, In e l -> ~ is_attached added e).
Proof.
  intros name st st' l H. unfold SearchByName in H.
  apply try_catch_rethrow_Return in H. rewrite bind_get_this in H.
  apply bind_Return_inv in H. destruct H as ([] & st0 & _ & H).
  rewrite bind_get_this in H.
  apply bind_Return_inv in H. destruct H as (entities & st1 & _ & H).
  cbv zeta in H.
  apply bind_Return_inv in H. destruct H as (translatedTags & st2 & _ & H).
  rewrite bind_get_this in H.
  destruct (_addedTags (this st2)) as [added|] eqn:Hadded; [| discriminate].
  inversion H; subst l st'; clear H.
  exists added. split; [exact Hadded|].
  unfold allTags.
  destruct (reduce_callback_distinct added
              (Js.sort SetPreferenceOrder
                 (map (tag_of_entity (this st0)) entities ++ translatedTags)) []
              (NoDup_nil _) (NoDup_nil _)) as [Hid Hname].
  repeat split; try assumption.
  - apply reduce_callback_ranked, sort_ranked.
  - apply reduce_callback_free.
Qed.

Lemma LoadEntityMetadata_keeps_configuration : keeps configuration (LoadEntityMetadata B).
Proof. unfold LoadEntityMetadata. frame. Qed.

Lemma GetAllByRecordId_keeps_configuration : keeps configuration (GetAllByRecordId B).
Proof.
  unfold GetAllByRecordId. frame. apply LoadEntityMetadata_keeps_configuration.
Qed.

(** X20.  No method changes what was configured at construction: the
    scope, the viewer locale and its language code, the entity name, the
    record identifier, the host and the base path are the same after
    [GetAllByRecordId], [SearchByName], [GetByName], [Add] and [Remove],
    whether they return or throw. *)
Theorem methods_keep_configuration :
  forall (name : string) (tagId : option string),
    keeps configuration (GetAllByRecordId B)
    /\ keeps configuration (SearchByName B name)
    /\ keeps configuration (GetByName B name)
    /\ keeps configuration (Add B name tagId)
    /\ keeps configuration (Remove B tagId).
Proof.
  intros name tagId.
  split; [apply GetAllByRecordId_keeps_configuration|].
  split; [| split; [apply GetByName_keeps | split]].
  - unfold SearchByName. frame;
      first [ apply GetAllByRecordId_keeps_configuration
            | apply SearchTranslationsByName_keeps ].
  - unfold Add. frame;
      first [ apply LoadEntityMetadata_keeps_configuration | apply GetByName_keeps
            | apply Create_keeps | apply Relate_keeps ].
  - unfold Remove. frame. apply LoadEntityMetadata_keeps_configuration.
Qed.

End SearchResult.

(** ** Further concrete runs *)

Lemma Add_returns_witness :
  exists tg added,
    Some MoreExamples.picked = Some tg
    /\ Tag.persisted tg = true
    /\ Js.truthy_value (Tag.id tg) = true
    /\ TagManagerService._addedTags (TagManagerService.this MoreExamples.support_state)
       = Some added
    /\ TagManagerService._addedTags
         (TagManagerService.this
            (snd (TagManagerService.Add Examples.quiet_backend "Sales" (Some "A")
                    MoreExamples.support_state)))
       = Some (added ++ [tg])%list
    /\ (forall tid, Some "A" = Some tid ->
          Tag.id tg = Js.str tid /\ Tag.name tg = "Sales").
Proof.
  apply (Add_returns Examples.quiet_backend "Sales" (Some "A") MoreExamples.support_state
           (snd (TagManagerService.Add Examples.quiet_backend "Sales" (Some "A")
                   MoreExamples.support_state))
           (Some MoreExamples.picked)).
  reflexivity.
Defined.

Lemma Add_selected_tag_witness :
  fst (TagManagerService.Add Examples.quiet_backend "Sales" (Some "A")
         MoreExamples.support_state)
  = Return (Some MoreExamples.picked).
Proof.
  rewrite (Add_selected_tag Examples.quiet_backend MoreExamples.support_state
             (snd (TagManagerService.LoadEntityMetadata Examples.quiet_backend
                     MoreExamples.support_state))
             "Sales" "A" 204 tt).
  - reflexivity.
  - discriminate.
  - reflexivity.
  - reflexivity.
Defined.

Lemma Add_empty_identifier_witness :
  fst (TagManagerService.Add Examples.quiet_backend "Sales" (Some "")
         MoreExamples.support_state)
  = Throw (TagManagerServiceError (mkMessage "ErrTagCreationRelationshipKey" [])
             (CustomError (mkMessage "ErrTagCreationKey" [("tagName", "Sales")]))).
Proof.
  rewrite (Add_empty_identifier Examples.quiet_backend MoreExamples.support_state
             (snd (TagManagerService.LoadEntityMetadata Examples.quiet_backend
                     MoreExamples.support_state))
             "Sales").
  - reflexivity.
  - reflexivity.
Defined.

Lemma LoadEntityMetadata_returns_witness :
  TagManagerService._addedTags
    (TagManagerService.this
       (snd (TagManagerService.LoadEntityMetadata Examples.quiet_backend
               MoreExamples.unconfigured_state)))
  = TagManagerService._addedTags (TagManagerService.this MoreExamples.unconfigured_state).
Proof.
  destruct (LoadEntityMetadata_returns Examples.quiet_backend MoreExamples.unconfigured_state
              (snd (TagManagerService.LoadEntityMetadata Examples.quiet_backend
                      MoreExamples.unconfigured_state)) eq_refl)
    as (Hadded & _).
  exact Hadded.
Defined.

Lemma LoadEntityMetadata_half_loaded_witness :
  exists st',
    TagManagerService.LoadEntityMetadata MoreExamples.half_backend
      MoreExamples.unconfigured_state = (Throw (Error "Network Error"), st')
    /\ TagManagerService._entitySetName (TagManagerService.this st') = Some "accounts"
    /\ TagManagerService._manyToManyRelationshipName (TagManagerService.this st') = None
    /\ TagManagerService.requests
         (snd (TagManagerService.Remove MoreExamples.half_backend (Some "A") st'))
       = (TagManagerService.requests st'
          ++ [axios_delete
                "/api/data/v9.1/accounts(rec-1)/undefined/$ref?$id=/api/data/v9.1/eax_tags(A)"])%list.
Proof.
  destruct (LoadEntityMetadata_half_loaded MoreExamples.half_backend
              MoreExamples.unconfigured_state "accounts" "rec-1" (Error "Network Error")
              tt tt eq_refl eq_refl eq_refl eq_refl)
    as (st' & Hrun & Hesn & Hm2m & _ & Hremove).
  exists st'. repeat split; try assumption. exact (Hremove "A").
Defined.

Lemma tag_of_attached_row_witness :
  Tag.name (Tag.Translate
              (Tag.new "Sales" "EN-US" (Some "skills") "es-mx" true (Js.str "A") (Some "rec-1"))
              "Ventas" "es-MX" "es-mx") = "Ventas"
  /\ Tag.originallcid
       (Tag.Translate
          (Tag.new "Sales" "EN-US" (Some "skills") "es-mx" true (Js.str "A") (Some "rec-1"))
          "Ventas" "es-MX" "es-mx") = Some "en-us".
Proof.
  destruct (tag_of_attached_row MoreExamples.spanish_service MoreExamples.translated_row
              (Tag.Translate
                 (Tag.new "Sales" "EN-US" (Some "skills") "es-mx" true (Js.str "A")
                    (Some "rec-1"))
                 "Ventas" "es-MX" "es-mx") eq_refl)
    as (_ & _ & _ & _ & _ & Htranslated).
  apply (Htranslated "Ventas"); [reflexivity | discriminate | vm_compute; discriminate].
Defined.


Lemma GetAllByRecordId_outcome_witness :
  TagManagerService._addedTags
    (TagManagerService.this
       (snd (TagManagerService.GetAllByRecordId Examples.one_attached_backend
               Examples.unloaded_state)))
  = Some [Examples.attachedA].
Proof.
  destruct (GetAllByRecordId_outcome Examples.one_attached_backend Examples.unloaded_state
              (snd (TagManagerService.GetAllByRecordId Examples.one_attached_backend
                      Examples.unloaded_state))) as [Hreturns _].
  destruct (Hreturns [Examples.attachedA] eq_refl) as [Hstored _]. exact Hstored.
Defined.

Lemma Add_then_Remove_witness :
  TagManagerService._addedTags
    (TagManagerService.this
       (snd (TagManagerService.Remove Examples.quiet_backend (Some "A")
               (snd (TagManagerService.Add Examples.quiet_backend "Sales" (Some "A")
                       MoreExamples.support_state)))))
  = Some [Examples.candB].
Proof.
  apply (Add_then_Remove Examples.quiet_backend MoreExamples.support_state
           (snd (TagManagerService.Add Examples.quiet_backend "Sales" (Some "A")
                   MoreExamples.support_state))
           (snd (TagManagerService.Remove Examples.quiet_backend (Some "A")
                   (snd (TagManagerService.Add Examples.quiet_backend "Sales" (Some "A")
                           MoreExamples.support_state))))
           "Sales" (Some "A") MoreExamples.picked "A" "rec-1" true [Examples.candB]).
  - reflexivity.
  - reflexivity.
  - simpl. intros t [<- | []]. vm_compute. discriminate.
  - reflexivity.
  - reflexivity.
  - reflexivity.
Defined.

Lemma SearchByName_returns_witness :
  exists added,
    TagManagerService._addedTags
      (TagManagerService.this
         (snd (TagManagerService.SearchByName Examples.sales_ventas_backend "a"
                 Examples.spanish_state))) = Some added
    /\ StronglySorted ranked_before
         [Tag.new "Ventas" "es-mx" None "es-mx" true (Js.str "A") None]
    /\ NoDup (map Tag.id [Tag.new "Ventas" "es-mx" None "es-mx" true (Js.str "A") None])
    /\ NoDup (map Tag.name [Tag.new "Ventas" "es-mx" None "es-mx" true (Js.str "A") None])
    /\ (forall e, In e [Tag.new "Ventas" "es-mx" None "es-mx" true (Js.str "A") None] ->
          ~ is_attached added e).
Proof.
  apply (SearchByName_returns Examples.sales_ventas_backend "a" Examples.spanish_state
           (snd (TagManagerService.SearchByName Examples.sales_ventas_backend "a"
                   Examples.spanish_state))
           [Tag.new "Ventas" "es-mx" None "es-mx" true (Js.str "A") None]).
  reflexivity.
Defined.
